(** * Student project submission app: a shallow embedding of [app.py]

    The program is a Streamlit form that validates four fields, walks or
    creates a four-level folder path in Google Drive, uploads a PDF and
    inserts one row in a Supabase table.  This file embeds the parts of it
    that carry behaviour: the Python string operations it relies on, the
    validation block of [main], the three Drive helpers, [save_submission]
    and the submission branch of [main]. *)

From Stdlib Require Import String Ascii Bool ZArith NArith Lia List.
From Stdlib Require Import Sorted Permutation.
Import ListNotations.

Open Scope N_scope.

(** ** Python strings

    A Python [str] is a sequence of Unicode code points; [len] counts code
    points, not bytes. *)

Definition codepoint := N.
Definition pystr := list codepoint.

(** Source literals are written in this file as UTF-8 text; [utf8_decode]
    turns the bytes of a literal into its code points. *)
Fixpoint utf8_decode (bs : list N) : pystr :=
  match bs with
  | [] => []
  | b0 :: r0 =>
      if b0 <? 128 then b0 :: utf8_decode r0
      else if b0 <? 224 then
        match r0 with
        | b1 :: r1 => ((b0 mod 32) * 64 + b1 mod 64) :: utf8_decode r1
        | [] => [b0]
        end
      else if b0 <? 240 then
        match r0 with
        | b1 :: b2 :: r2 =>
            ((b0 mod 16) * 4096 + (b1 mod 64) * 64 + b2 mod 64) :: utf8_decode r2
        | _ => [b0]
        end
      else
        match r0 with
        | b1 :: b2 :: b3 :: r3 =>
            ((b0 mod 8) * 262144 + (b1 mod 64) * 4096 + (b2 mod 64) * 64 + b3 mod 64)
              :: utf8_decode r3
        | _ => [b0]
        end
  end.

Fixpoint bytes_of_string (s : string) : list N :=
  match s with
  | EmptyString => []
  | String a r => N_of_ascii a :: bytes_of_string r
  end.

Definition u (s : string) : pystr := utf8_decode (bytes_of_string s).

Fixpoint pystr_eqb (a b : pystr) : bool :=
  match a, b with
  | [], [] => true
  | x :: a', y :: b' => (x =? y) && pystr_eqb a' b'
  | _, _ => false
  end.

(** [str.isspace] on one code point: the table of CPython's
    [_PyUnicode_IsWhitespace]. *)
Definition isspace (c : codepoint) : bool :=
  ((9 <=? c) && (c <=? 13)) || ((28 <=? c) && (c <=? 32))
  || (c =? 133) || (c =? 160) || (c =? 5760)
  || ((8192 <=? c) && (c <=? 8202))
  || (c =? 8232) || (c =? 8233) || (c =? 8239) || (c =? 8287) || (c =? 12288).

(** [s.lstrip()], [s.rstrip()], [s.strip()] with no argument. *)
Fixpoint lstrip (s : pystr) : pystr :=
  match s with
  | [] => []
  | c :: r => if isspace c then lstrip r else s
  end.

Definition rstrip (s : pystr) : pystr := rev (lstrip (rev s)).

Definition strip (s : pystr) : pystr := rstrip (lstrip s).

(** [len(s)] as a Python integer. *)
Definition len (s : pystr) : Z := Z.of_nat (length s).

(** Truthiness of a string: [not s] holds for the empty string only. *)
Definition truthy (s : pystr) : bool :=
  match s with [] => false | _ :: _ => true end.

(** [s[:n]]. *)
Definition slice_to (n : nat) (s : pystr) : pystr := firstn n s.

(** [s.replace(old, new)] for a non-empty [old]: scan from the left, replace
    each occurrence and continue after it. [skip] counts the characters of
    a matched occurrence still to be passed over. *)
Fixpoint starts_with (p s : pystr) : bool :=
  match p, s with
  | [], _ => true
  | _ :: _, [] => false
  | a :: p', b :: s' => (a =? b) && starts_with p' s'
  end.

Fixpoint replace_from (old new s : pystr) (skip : nat) : pystr :=
  match s with
  | [] => []
  | c :: r =>
      match skip with
      | S k => replace_from old new r k
      | O =>
          if starts_with old s
          then new ++ replace_from old new r (length old - 1)
          else c :: replace_from old new r 0
      end
  end.

Definition replace (old new s : pystr) : pystr := replace_from old new s 0.

(** Number of characters of [s] that are not whitespace. *)
Definition count_nonspace (s : pystr) : nat :=
  length (filter (fun c => negb (isspace c)) s).

(** ** The uploaded file and the validation block of [main] *)

Record UploadedFile := mkUploaded {
  uf_name : pystr;
  uf_size : Z;             (* the [.size] attribute *)
  uf_data : list N         (* what [.read()] returns *)
}.

Definition err_name : pystr :=
  u "⚠️ يجب إدخال اسم الطالب الثلاثي (6 أحرف على الأقل)".
Definition err_title : pystr :=
  u "⚠️ يجب إدخال عنوان المشروع (5 أحرف على الأقل)".
Definition err_no_file : pystr :=
  u "⚠️ يجب اختيار ملف PDF للمشروع".
Definition err_size : pystr :=
  u "⚠️ حجم الملف يتجاوز الحد المسموح (10 MB)".

Definition size_limit : Z := (10 * 1024 * 1024)%Z.

Definition name_rejected (student_name : pystr) : bool :=
  negb (truthy student_name) || (len (strip student_name) <? 6)%Z.

Definition title_rejected (project_title : pystr) : bool :=
  negb (truthy project_title) || (len (strip project_title) <? 5)%Z.

Definition file_missing (uploaded_file : option UploadedFile) : bool :=
  match uploaded_file with None => true | Some _ => false end.

(** [uploaded_file and uploaded_file.size > 10 * 1024 * 1024]: an
    [UploadedFile] object is always truthy, so the left operand only tests
    for [None]. *)
Definition size_rejected (uploaded_file : option UploadedFile) : bool :=
  match uploaded_file with
  | None => false
  | Some f => (uf_size f >? size_limit)%Z
  end.

Definition append_if (b : bool) (msg : pystr) (errors : list pystr) : list pystr :=
  if b then errors ++ [msg] else errors.

Definition validate (student_name project_title : pystr)
    (uploaded_file : option UploadedFile) : list pystr :=
  let errors := [] in
  let errors := append_if (name_rejected student_name) err_name errors in
  let errors := append_if (title_rejected project_title) err_title errors in
  let errors := append_if (file_missing uploaded_file) err_no_file errors in
  let errors := append_if (size_rejected uploaded_file) err_size errors in
  errors.

(** ** Effects: exceptions over a persistent world

    A Python exception aborts the rest of a [try] body but never undoes what
    the body already did, so a computation returns its outcome together with
    the world it leaves behind, on both paths. *)

Inductive result (A : Type) : Type :=
| Ok (a : A)
| Raise (msg : pystr).            (* [str(e)] of the exception raised *)
Arguments Ok {A} a.
Arguments Raise {A} msg.

(** A file or folder held by the storage provider. *)
Record DriveFile := mkFile {
  f_id : pystr;
  f_name : pystr;
  f_mime : pystr;
  f_parents : list pystr;           (* [[]]: placed in the root *)
  f_media : option (list N);
  f_link : pystr;                   (* [webViewLink] *)
  f_perms : list (pystr * pystr)    (* granted [(type, role)] pairs *)
}.

(** A row of the [submissions] table. *)
Record Submission := mkSubmission {
  student_name_col : pystr;
  project_title_col : pystr;
  file_url_col : pystr;
  grade_level_col : pystr;
  section_col : pystr;
  year_col : pystr;
  semester_col : pystr;
  timestamp_col : pystr
}.

(** What the page shows, in the order the [st.*] calls are made. *)
Inductive Element : Type :=
| StError (body : pystr)
| StWarning (body : pystr)
| StSuccess (body : pystr)
| StInfo (body : pystr)
| StMarkdown (body : pystr)
| StSpinner (text : pystr)
| StBalloons.

(** [outcomes] scripts the external calls still to come, in program order:
    [None] lets the call go through, [Some msg] makes it raise with message
    [msg]; calls beyond the end of the script go through. *)
Record World := mkWorld {
  drive : list DriveFile;
  submissions : list Submission;
  outcomes : list (option pystr);
  screen : list Element
}.

Definition M (A : Type) : Type := World -> result A * World.

Definition ret {A} (a : A) : M A := fun w => (Ok a, w).

Definition raise {A} (msg : pystr) : M A := fun w => (Raise msg, w).

Definition bind {A B} (m : M A) (k : A -> M B) : M B :=
  fun w =>
    match m w with
    | (Ok a, w') => k a w'
    | (Raise msg, w') => (Raise msg, w')
    end.

(** [try: m  except Exception as e: h(str(e))]. *)
Definition try_except {A} (m : M A) (h : pystr -> M A) : M A :=
  fun w =>
    match m w with
    | (Ok a, w') => (Ok a, w')
    | (Raise msg, w') => h msg w'
    end.

Declare Scope py_scope.
Delimit Scope py_scope with py.
Notation "x <- m ;; k" := (bind m (fun x => k))
  (at level 61, m at next level, right associativity) : py_scope.
Notation "m ;; k" := (bind m (fun _ => k))
  (at level 61, right associativity) : py_scope.
Open Scope py_scope.

Definition set_outcomes (os : list (option pystr)) (w : World) : World :=
  mkWorld (drive w) (submissions w) os (screen w).

Definition set_drive (fs : list DriveFile) (w : World) : World :=
  mkWorld fs (submissions w) (outcomes w) (screen w).

Definition set_submissions (rows : list Submission) (w : World) : World :=
  mkWorld (drive w) rows (outcomes w) (screen w).

Definition next_outcome (w : World) : option pystr := hd None (outcomes w).

Definition advance (w : World) : World :=
  match outcomes w with
  | [] => w
  | _ :: os => set_outcomes os w
  end.

(** One call into a client library: it takes the next scripted outcome. *)
Definition external : M unit :=
  fun w =>
    match next_outcome w with
    | None => (Ok tt, advance w)
    | Some msg => (Raise msg, advance w)
    end.

(** [st.error], [st.success], ...: append one element to the page. *)
Definition st (e : Element) : M unit :=
  fun w => (Ok tt, mkWorld (drive w) (submissions w) (outcomes w) (screen w ++ [e])).

Fixpoint st_each (mk : pystr -> Element) (msgs : list pystr) : M unit :=
  match msgs with
  | [] => ret tt
  | m :: r => st (mk m) ;; st_each mk r
  end.

(** ** The storage provider and the three Drive helpers *)

Definition folder_mime : pystr := u "application/vnd.google-apps.folder".
Definition pdf_mime : pystr := u "application/pdf".

(** The search the source writes in the provider's query language,
    [name='..' and mimeType='..'] with an optional [and '..' in parents],
    kept as its three conditions. *)
Record Query := mkQuery {
  q_name : pystr;
  q_mime : pystr;
  q_parent : option pystr
}.

Definition matches (q : Query) (f : DriveFile) : bool :=
  pystr_eqb (f_name f) (q_name q)
  && pystr_eqb (f_mime f) (q_mime q)
  && match q_parent q with
     | None => true
     | Some p => existsb (pystr_eqb p) (f_parents f)
     end.

(** [if parent_id:] is false for [None] and for the empty string. *)
Definition given (parent_id : option pystr) : option pystr :=
  match parent_id with
  | Some p => if truthy p then Some p else None
  | None => None
  end.

Definition parents_of (parent_id : option pystr) : list pystr :=
  match given parent_id with
  | Some p => [p]
  | None => []
  end.

Definition folder_query (folder_name : pystr) (parent_id : option pystr) : Query :=
  mkQuery folder_name folder_mime (given parent_id).

Definition grant (fileId : pystr) (perm : pystr * pystr) (f : DriveFile) : DriveFile :=
  if pystr_eqb (f_id f) fileId
  then mkFile (f_id f) (f_name f) (f_mime f) (f_parents f) (f_media f) (f_link f)
              (f_perms f ++ [perm])
  else f.

Definition anyone_reader : pystr * pystr := (u "anyone", u "reader").

Definition folder_error (folder_name e : pystr) : pystr :=
  u "خطأ في إنشاء/البحث عن المجلد '" ++ folder_name ++ u "': " ++ e.

Definition structure_error (e : pystr) : pystr :=
  u "خطأ في إنشاء هيكلة المجلدات: " ++ e.

Definition upload_error (e : pystr) : pystr :=
  u "فشل رفع الملف: " ++ e.

Definition save_error (e : pystr) : pystr :=
  u "فشل حفظ البيانات: " ++ e.

(** [str(e)] of the [TypeError] that CPython's [open] raises when it is given
    a [BytesIO] object for a file name. *)
Definition media_type_error : pystr :=
  u "expected str, bytes or os.PathLike object, not BytesIO".

Section Backend.

(** What the provider and the clock choose: the id given to a new file (it
    may depend on everything stored so far), the view link of a file, and the
    two renderings of [datetime.now()]. *)
Variable mint : list DriveFile -> pystr.
Variable view_link : pystr -> pystr.
Variable now_isoformat : pystr.
Variable now_strftime : pystr.

(** [service.files().list(q=..., pageSize=n).execute().get('files', [])]:
    the first [n] stored files that satisfy the query, in stored order.  The
    call asks for no order, so the order is the provider's to choose:
    [AnyOrder] below states the same helpers for any order. *)
Definition files_list (q : Query) (pageSize : nat) : M (list DriveFile) :=
  external ;;
  fun w => (Ok (firstn pageSize (filter (matches q) (drive w))), w).

(** [service.files().create(body=..., media_body=...).execute()]: the new
    file is stored after the existing ones. *)
Definition files_create (name mime : pystr) (parents : list pystr)
    (media : option (list N)) : M DriveFile :=
  external ;;
  fun w =>
    let id := mint (drive w) in
    let f := mkFile id name mime parents media (view_link id) [] in
    (Ok f, set_drive (drive w ++ [f]) w).

(** [service.permissions().create(fileId=..., body=...).execute()]. *)
Definition permissions_create (fileId : pystr) (perm : pystr * pystr) : M unit :=
  external ;;
  fun w => (Ok tt, set_drive (map (grant fileId perm) (drive w)) w).

(** [MediaFileUpload(io.BytesIO(file_content), ...)]: the constructor takes
    the name of a file and opens it; handed a [BytesIO] object instead, the
    [open] inside it raises a [TypeError] with [media_type_error] as its
    message, before anything is sent to the provider. *)
Definition MediaFileUpload (file_content : list N) : M (list N) :=
  raise media_type_error.

(** [supabase.table('submissions').insert(data).execute()]. *)
Definition table_insert (data : Submission) : M (list Submission) :=
  external ;;
  fun w => (Ok [data], set_submissions (submissions w ++ [data]) w).

Definition find_or_create_folder (folder_name : pystr) (parent_id : option pystr)
    : M pystr :=
  try_except
    (files <- files_list (folder_query folder_name parent_id) 1 ;;
     match files with
     | f :: _ => ret (f_id f)
     | [] =>
         folder <- files_create folder_name folder_mime (parents_of parent_id) None ;;
         ret (f_id folder)
     end)
    (fun e => raise (folder_error folder_name e)).

Definition create_folder_structure (year semester grade section : pystr) : M pystr :=
  try_except
    (year_folder_id <- find_or_create_folder year None ;;
     semester_folder_id <- find_or_create_folder semester (Some year_folder_id) ;;
     grade_folder_id <- find_or_create_folder grade (Some semester_folder_id) ;;
     section_folder_id <- find_or_create_folder section (Some grade_folder_id) ;;
     ret section_folder_id)
    (fun e => raise (structure_error e)).

Definition upload_file_to_drive (file_content : list N) (file_name folder_id : pystr)
    : M pystr :=
  try_except
    (media <- MediaFileUpload file_content ;;
     file <- files_create file_name pdf_mime [folder_id] (Some media) ;;
     permissions_create (f_id file) anyone_reader ;;
     ret (f_link file))
    (fun e => raise (upload_error e)).

Definition save_submission (data : Submission) : M (list Submission) :=
  try_except (table_insert data) (fun e => raise (save_error e)).

(** ** The submission branch of [main] *)

Definition upload_file_name (student_name project_title : pystr) : pystr :=
  let safe_student_name := replace (u " ") (u "_") student_name in
  safe_student_name ++ u "_" ++ slice_to 30 project_title ++ u ".pdf".

(** [uploaded_file.read()]; on [None] Python raises an [AttributeError]. *)
Definition read (uploaded_file : option UploadedFile) : M (list N) :=
  match uploaded_file with
  | Some f => ret (uf_data f)
  | None => raise (u "'NoneType' object has no attribute 'read'")
  end.

Definition nl : pystr := [10].
Definition indent : pystr := repeat 32 20.

Definition details (student_name project_title selected_grade selected_section : pystr)
    : pystr :=
  nl ++ indent ++ u "**تفاصيل التسليم:**"
  ++ nl ++ indent ++ u "- **الطالب:** " ++ student_name
  ++ nl ++ indent ++ u "- **المشروع:** " ++ project_title
  ++ nl ++ indent ++ u "- **المرحلة:** " ++ selected_grade
  ++ nl ++ indent ++ u "- **الشعبة:** " ++ selected_section
  ++ nl ++ indent ++ u "- **التاريخ:** " ++ now_strftime
  ++ nl ++ indent.

Definition spinner_text : pystr := u "جاري رفع المشروع... الرجاء الانتظار".
Definition success_text : pystr := u "✅ تم رفع المشروع بنجاح!".
Definition not_saved_text : pystr := u "لم يتم حفظ البيانات. الرجاء المحاولة مرة أخرى.".

Definition failure_text (e : pystr) : pystr :=
  u "❌ حدث خطأ أثناء رفع المشروع: " ++ e.

Definition link_text (file_url : pystr) : pystr :=
  u "[🔗 عرض الملف في Google Drive](" ++ file_url ++ u ")".

(** The body of [if submitted:], given the configuration row and the values
    of the form. *)
Definition process_submission (current_year current_semester : pystr)
    (selected_grade selected_section student_name project_title : pystr)
    (uploaded_file : option UploadedFile) : M unit :=
  let errors := validate student_name project_title uploaded_file in
  match errors with
  | _ :: _ => st_each StError errors
  | [] =>
      st (StSpinner spinner_text) ;;
      try_except
        (folder_id <- create_folder_structure current_year current_semester
                        selected_grade selected_section ;;
         let file_name := upload_file_name student_name project_title in
         file_content <- read uploaded_file ;;
         file_url <- upload_file_to_drive file_content file_name folder_id ;;
         let submission_data :=
           mkSubmission (strip student_name) (strip project_title) file_url
             selected_grade selected_section current_year current_semester
             now_isoformat in
         save_submission submission_data ;;
         st (StSuccess success_text) ;;
         st StBalloons ;;
         st (StInfo (details student_name project_title selected_grade selected_section)) ;;
         st (StMarkdown (link_text file_url)))
        (fun e =>
           st (StError (failure_text e)) ;;
           st (StWarning not_saved_text))
  end.

End Backend.

(** The folder that [find_or_create_folder] stores when it finds none. *)
Definition new_folder (mint : list DriveFile -> pystr) (view_link : pystr -> pystr)
    (folder_name : pystr) (parent_id : option pystr) (fs : list DriveFile) : DriveFile :=
  mkFile (mint fs) folder_name folder_mime (parents_of parent_id) None
         (view_link (mint fs)) [].

(** [resolves name parent id fs]: the search for [name] under [parent] in the
    stored files [fs] lists a folder, and the first one listed has id [id]. *)
Definition resolves (folder_name : pystr) (parent_id : option pystr) (id : pystr)
    (fs : list DriveFile) : Prop :=
  exists f rest,
    filter (matches (folder_query folder_name parent_id)) fs = f :: rest
    /\ f_id f = id.

(** The page after [es] more elements. *)
Definition shown (es : list Element) (w : World) : World :=
  mkWorld (drive w) (submissions w) (outcomes w) (screen w ++ es).

(** A computation that touches neither the table nor the page. *)
Definition framed {A} (m : M A) : Prop :=
  forall w, submissions (snd (m w)) = submissions w /\ screen (snd (m w)) = screen w.

(** [name.replace(" ", "_")], character by character. *)
Definition underscore (c : codepoint) : codepoint := if c =? 32 then 95 else c.

Arguments u : simpl never.

(** The four rules of the validating step as the specification words them:
    the name is present with at least 6 non-whitespace characters, the title
    is present with at least 5, a file was chosen, and the file is at most
    10 MiB. *)
Module SpecRules.

Definition name_ok (student_name : pystr) : bool :=
  truthy student_name && (6 <=? count_nonspace student_name)%nat.

Definition title_ok (project_title : pystr) : bool :=
  truthy project_title && (5 <=? count_nonspace project_title)%nat.

Definition file_chosen (uploaded_file : option UploadedFile) : bool :=
  match uploaded_file with Some _ => true | None => false end.

Definition size_ok (uploaded_file : option UploadedFile) : bool :=
  match uploaded_file with
  | Some f => (uf_size f <=? size_limit)%Z
  | None => false
  end.

End SpecRules.

(** The message of the first call of the script that is set to raise. *)
Fixpoint first_failure (os : list (option pystr)) : option pystr :=
  match os with
  | [] => None
  | None :: r => first_failure r
  | Some e :: _ => Some e
  end.


(** ** The folder helpers with the listing order left to the provider

    The search sends no [orderBy], so which matching folder comes first is
    the provider's choice: [arrange] is the order in which it answers.  With
    [arrange] the identity these are the definitions above. *)
Module AnyOrder.

Section Provider.

Variable mint : list DriveFile -> pystr.
Variable view_link : pystr -> pystr.
Variable arrange : list DriveFile -> list DriveFile.

Definition files_list (q : Query) (pageSize : nat) : M (list DriveFile) :=
  external ;;
  fun w => (Ok (firstn pageSize (arrange (filter (matches q) (drive w)))), w).

Definition find_or_create_folder (folder_name : pystr) (parent_id : option pystr)
    : M pystr :=
  try_except
    (files <- files_list (folder_query folder_name parent_id) 1 ;;
     match files with
     | f :: _ => ret (f_id f)
     | [] =>
         folder <- files_create mint view_link folder_name folder_mime
                     (parents_of parent_id) None ;;
         ret (f_id folder)
     end)
    (fun e => raise (folder_error folder_name e)).

Definition create_folder_structure (year semester grade section : pystr) : M pystr :=
  try_except
    (year_folder_id <- find_or_create_folder year None ;;
     semester_folder_id <- find_or_create_folder semester (Some year_folder_id) ;;
     grade_folder_id <- find_or_create_folder grade (Some semester_folder_id) ;;
     section_folder_id <- find_or_create_folder section (Some grade_folder_id) ;;
     ret section_folder_id)
    (fun e => raise (structure_error e)).


End Provider.

End AnyOrder.



(** ** Reading the configuration and the class list *)

(** A row of [system_config] and a row of [classes], with the columns the
    program reads. *)
Record ConfigRow := mkConfig {
  current_year : pystr;
  current_semester : pystr
}.

Record ClassRow := mkClass {
  grade_level : pystr;
  section_name : pystr
}.

Definition no_config_text : pystr :=
  u "لم يتم العثور على إعدادات النظام في قاعدة البيانات".

Definition config_error (e : pystr) : pystr :=
  u "خطأ في جلب إعدادات النظام: " ++ e.

Definition classes_error (e : pystr) : pystr :=
  u "خطأ في جلب قائمة الصفوف: " ++ e.

Definition no_classes_text : pystr := u "لا توجد صفوف مسجلة في النظام".

(** [supabase.table(..).select('*')...execute().data]: one call into the
    client library, answering with the rows [rows] the database has for the
    query. *)
Definition table_select {A} (rows : list A) : M (list A) :=
  external ;; ret rows.

(** [system_config] is the content of the table; [.limit(1)] keeps its first
    row. *)
Definition get_system_config (system_config : list ConfigRow) : M (option ConfigRow) :=
  try_except
    (data <- table_select (firstn 1 system_config) ;;
     match data with
     | row :: _ => ret (Some row)
     | [] => st (StError no_config_text) ;; ret None
     end)
    (fun e => st (StError (config_error e)) ;; ret None).

(** [classes] is the content of the table in the order the database gives
    for [.order('grade_level')]. *)
Definition get_classes (classes : list ClassRow) : M (list ClassRow) :=
  try_except
    (table_select classes)
    (fun e => st (StError (classes_error e)) ;; ret []).

(** [a < b] on strings: code point by code point, a proper prefix first. *)
Fixpoint pystr_ltb (a b : pystr) : bool :=
  match a, b with
  | _, [] => false
  | [], _ :: _ => true
  | x :: a', y :: b' => (x <? y) || ((x =? y) && pystr_ltb a' b')
  end.

(** [set(l)] as the list of its elements, and [sorted(...)] of a list of
    strings. *)
Fixpoint distinct (l : list pystr) : list pystr :=
  match l with
  | [] => []
  | x :: r => if existsb (pystr_eqb x) r then distinct r else x :: distinct r
  end.

Fixpoint insert_sorted (x : pystr) (l : list pystr) : list pystr :=
  match l with
  | [] => [x]
  | y :: r => if pystr_ltb y x then y :: insert_sorted x r else x :: y :: r
  end.

Definition sorted (l : list pystr) : list pystr := fold_right insert_sorted [] l.

(** [grades = sorted(list(set([c['grade_level'] for c in classes])))]. *)
Definition grades_of (classes : list ClassRow) : list pystr :=
  sorted (distinct (map grade_level classes)).

(** [sections = [c['section_name'] for c in classes
                 if c['grade_level'] == selected_grade]]. *)
Definition sections_of (classes : list ClassRow) (selected_grade : pystr) : list pystr :=
  map section_name
      (filter (fun c => pystr_eqb (grade_level c) selected_grade) classes).

(** ** A concrete provider, for running the model *)

Fixpoint digits (d : Decimal.uint) : pystr :=
  match d with
  | Decimal.Nil => []
  | Decimal.D0 r => 48 :: digits r
  | Decimal.D1 r => 49 :: digits r
  | Decimal.D2 r => 50 :: digits r
  | Decimal.D3 r => 51 :: digits r
  | Decimal.D4 r => 52 :: digits r
  | Decimal.D5 r => 53 :: digits r
  | Decimal.D6 r => 54 :: digits r
  | Decimal.D7 r => 55 :: digits r
  | Decimal.D8 r => 56 :: digits r
  | Decimal.D9 r => 57 :: digits r
  end.

(** Ids [id0], [id1], ... numbered by how many files are stored. *)
Definition sample_mint (fs : list DriveFile) : pystr :=
  u "id" ++ digits (Nat.to_uint (length fs)).

Definition sample_link (id : pystr) : pystr :=
  u "https://drive.google.com/file/d/" ++ id ++ u "/view".

Definition sample_folder (id name : pystr) (parents : list pystr) : DriveFile :=
  mkFile id name folder_mime parents None (sample_link id) [].

Definition empty_world : World := mkWorld [] [] [] [].

Definition sample_pdf (size : Z) : UploadedFile :=
  mkUploaded (u "project.pdf") size [37; 80; 68; 70].

(** The folder step of [sample_submit] run on [w]. *)
Definition sample_folders_on (w : World) : result pystr * World :=
  create_folder_structure sample_mint sample_link (u "2025") (u "1") (u "10") (u "A")
    (shown [StSpinner spinner_text] w).



Definition sample_classes : list ClassRow :=
  [mkClass (u "10") (u "A"); mkClass (u "10") (u "B");
   mkClass (u "9") (u "A"); mkClass (u "11") (u "C")].

(** Two root folders of the same name. *)
Definition twin_world : World :=
  mkWorld [sample_folder (u "a") (u "2025") []; sample_folder (u "b") (u "2025") []]
          [] [] [].

(** A script in which the [n] next calls go through and the one after
    raises [msg]. *)
Definition failing_after (n : nat) (msg : pystr) : World :=
  mkWorld [] [] (repeat None n ++ [Some msg]) [].

Definition sample_submit : M unit :=
  process_submission sample_mint sample_link
    (u "2026-11-03T10:00:00") (u "2026-11-03 10:00")
    (u "2025") (u "1") (u "10") (u "A")
    (u "Ahmed Ali Omar") (u "Renewable Energy and Its Future Impact")
    (Some (sample_pdf 4)).

(** ** Python strings: facts used below *)

Lemma pystr_eqb_eq (a b : pystr) : pystr_eqb a b = true <-> a = b.
Proof.
  revert b; induction a as [|x a IH]; intros [|y b]; simpl;
    try (split; [discriminate | discriminate]); try tauto.
  rewrite andb_true_iff, N.eqb_eq, IH.
  split; [intros [-> ->]; reflexivity | intros E; injection E; auto].
Qed.

Lemma pystr_eqb_refl (a : pystr) : pystr_eqb a a = true.
Proof. apply pystr_eqb_eq; reflexivity. Qed.

Lemma pystr_eqb_neq (a b : pystr) : pystr_eqb a b = false -> a <> b.
Proof.
  intros E H; apply pystr_eqb_eq in H; rewrite H in E; discriminate.
Qed.

Lemma count_nonspace_lstrip (s : pystr) :
  count_nonspace (lstrip s) = count_nonspace s.
Proof.
  unfold count_nonspace.
  induction s as [|c r IH]; simpl; [reflexivity|].
  destruct (isspace c) eqn:E; simpl; [exact IH | rewrite E; reflexivity].
Qed.

Lemma count_nonspace_rev (s : pystr) :
  count_nonspace (rev s) = count_nonspace s.
Proof.
  unfold count_nonspace. rewrite filter_rev, length_rev. reflexivity.
Qed.

Lemma count_nonspace_strip (s : pystr) :
  count_nonspace (strip s) = count_nonspace s.
Proof.
  unfold strip, rstrip.
  rewrite count_nonspace_rev, count_nonspace_lstrip, count_nonspace_rev.
  apply count_nonspace_lstrip.
Qed.

(** Trimming removes whitespace only: every other character survives. *)
Lemma count_nonspace_le_strip (s : pystr) :
  (count_nonspace s <= length (strip s))%nat.
Proof.
  rewrite <- count_nonspace_strip. unfold count_nonspace.
  apply filter_length_le.
Qed.

Lemma strip_nil : strip [] = [].
Proof. reflexivity. Qed.

Lemma replace_from_char (a b : codepoint) (s : pystr) :
  replace_from [a] [b] s 0 = map (fun c => if c =? a then b else c) s.
Proof.
  induction s as [|c r IH]; simpl; [reflexivity|].
  rewrite (N.eqb_sym a c).
  destruct (c =? a); simpl; rewrite IH; reflexivity.
Qed.

(** ** Validation: the messages and the rules they answer to *)

Lemma In_append_if (x : pystr) (b : bool) (m : pystr) (l : list pystr) :
  In x (append_if b m l) <-> In x l \/ (b = true /\ x = m).
Proof.
  unfold append_if; destruct b.
  - rewrite in_app_iff; simpl; intuition congruence.
  - intuition congruence.
Qed.

Lemma validate_In (x : pystr) (n t : pystr) (f : option UploadedFile) :
  In x (validate n t f) <->
    (name_rejected n = true /\ x = err_name)
    \/ (title_rejected t = true /\ x = err_title)
    \/ (file_missing f = true /\ x = err_no_file)
    \/ (size_rejected f = true /\ x = err_size).
Proof.
  unfold validate. rewrite !In_append_if. cbn [In]. tauto.
Qed.

Lemma err_name_title : err_name <> err_title.
Proof. apply pystr_eqb_neq; vm_compute; reflexivity. Qed.
Lemma err_name_no_file : err_name <> err_no_file.
Proof. apply pystr_eqb_neq; vm_compute; reflexivity. Qed.
Lemma err_name_size : err_name <> err_size.
Proof. apply pystr_eqb_neq; vm_compute; reflexivity. Qed.
Lemma err_title_no_file : err_title <> err_no_file.
Proof. apply pystr_eqb_neq; vm_compute; reflexivity. Qed.
Lemma err_title_size : err_title <> err_size.
Proof. apply pystr_eqb_neq; vm_compute; reflexivity. Qed.
Lemma err_no_file_size : err_no_file <> err_size.
Proof. apply pystr_eqb_neq; vm_compute; reflexivity. Qed.

Ltac err_clash :=
  exfalso;
  match goal with
  | E : err_name = err_title |- _ => exact (err_name_title E)
  | E : err_title = err_name |- _ => exact (err_name_title (eq_sym E))
  | E : err_name = err_no_file |- _ => exact (err_name_no_file E)
  | E : err_no_file = err_name |- _ => exact (err_name_no_file (eq_sym E))
  | E : err_name = err_size |- _ => exact (err_name_size E)
  | E : err_size = err_name |- _ => exact (err_name_size (eq_sym E))
  | E : err_title = err_no_file |- _ => exact (err_title_no_file E)
  | E : err_no_file = err_title |- _ => exact (err_title_no_file (eq_sym E))
  | E : err_title = err_size |- _ => exact (err_title_size E)
  | E : err_size = err_title |- _ => exact (err_title_size (eq_sym E))
  | E : err_no_file = err_size |- _ => exact (err_no_file_size E)
  | E : err_size = err_no_file |- _ => exact (err_no_file_size (eq_sym E))
  end.

Lemma In_err_name (n t : pystr) (f : option UploadedFile) :
  In err_name (validate n t f) <-> name_rejected n = true.
Proof.
  rewrite validate_In; split.
  - intros [[H _]|[[_ E]|[[_ E]|[_ E]]]]; [exact H | err_clash ..].
  - intro H; left; split; [exact H | reflexivity].
Qed.

Lemma In_err_title (n t : pystr) (f : option UploadedFile) :
  In err_title (validate n t f) <-> title_rejected t = true.
Proof.
  rewrite validate_In; split.
  - intros [[_ E]|[[H _]|[[_ E]|[_ E]]]]; [err_clash | exact H | err_clash ..].
  - intro H; right; left; split; [exact H | reflexivity].
Qed.

Lemma In_err_no_file (n t : pystr) (f : option UploadedFile) :
  In err_no_file (validate n t f) <-> file_missing f = true.
Proof.
  rewrite validate_In; split.
  - intros [[_ E]|[[_ E]|[[H _]|[_ E]]]]; [err_clash | err_clash | exact H | err_clash].
  - intro H; right; right; left; split; [exact H | reflexivity].
Qed.

Lemma In_err_size (n t : pystr) (f : option UploadedFile) :
  In err_size (validate n t f) <-> size_rejected f = true.
Proof.
  rewrite validate_In; split.
  - intros [[_ E]|[[_ E]|[[_ E]|[H _]]]]; [err_clash | err_clash | err_clash | exact H].
  - intro H; right; right; right; split; [exact H | reflexivity].
Qed.

Lemma name_rejected_iff (n : pystr) :
  name_rejected n = true <-> (len (strip n) < 6)%Z.
Proof.
  unfold name_rejected. rewrite orb_true_iff, Z.ltb_lt.
  split; [intros [E|E]; [|exact E] | auto].
  destruct n; [rewrite strip_nil; unfold len; simpl; lia | discriminate].
Qed.

Lemma title_rejected_iff (t : pystr) :
  title_rejected t = true <-> (len (strip t) < 5)%Z.
Proof.
  unfold title_rejected. rewrite orb_true_iff, Z.ltb_lt.
  split; [intros [E|E]; [|exact E] | auto].
  destruct t; [rewrite strip_nil; unfold len; simpl; lia | discriminate].
Qed.

(** ** The name and title rules *)

(** C2, as the code has it: the name error is reported exactly when the name,
    with leading and trailing whitespace stripped, has fewer than 6
    characters (the empty name included; whitespace inside the name counts);
    and every name with at least 6 non-whitespace characters passes. *)
Theorem name_rule (student_name project_title : pystr)
    (uploaded_file : option UploadedFile) :
  (In err_name (validate student_name project_title uploaded_file)
     <-> (len (strip student_name) < 6)%Z)
  /\ ((6 <= count_nonspace student_name)%nat ->
      ~ In err_name (validate student_name project_title uploaded_file)).
Proof.
  split.
  - rewrite In_err_name. apply name_rejected_iff.
  - intros H6 Hin.
    apply In_err_name, name_rejected_iff in Hin.
    pose proof (count_nonspace_le_strip student_name).
    unfold len in Hin. lia.
Qed.

Lemma name_rule_witness :
  (6 <= count_nonspace (u "Ahmed Ali Omar"))%nat
  /\ ~ In err_name (validate (u "Ahmed Ali Omar") [] None).
Proof.
  split.
  - vm_compute. lia.
  - apply (proj2 (name_rule (u "Ahmed Ali Omar") [] None)). vm_compute. lia.
Defined.

(** C2 as stated fails: a name of four letters separated by spaces has
    fewer than 6 non-whitespace characters and raises no error. *)
Lemma name_rule_counterexample :
  count_nonspace (u "a b c d") = 4%nat
  /\ name_rejected (u "a b c d") = false
  /\ validate (u "a b c d") (u "Solar power") (Some (sample_pdf 4)) = [].
Proof. vm_compute. repeat split. Qed.

(** C8, as the code has it: the title error is reported exactly when the
    title, with leading and trailing whitespace stripped, has fewer than 5
    characters (the empty title included; whitespace inside the title
    counts); and every title with at least 5 non-whitespace characters
    passes. *)
Theorem title_rule (student_name project_title : pystr)
    (uploaded_file : option UploadedFile) :
  (In err_title (validate student_name project_title uploaded_file)
     <-> (len (strip project_title) < 5)%Z)
  /\ ((5 <= count_nonspace project_title)%nat ->
      ~ In err_title (validate student_name project_title uploaded_file)).
Proof.
  split.
  - rewrite In_err_title. apply title_rejected_iff.
  - intros H5 Hin.
    apply In_err_title, title_rejected_iff in Hin.
    pose proof (count_nonspace_le_strip project_title).
    unfold len in Hin. lia.
Qed.

Lemma title_rule_witness :
  (5 <= count_nonspace (u "Solar power"))%nat
  /\ ~ In err_title (validate [] (u "Solar power") None).
Proof.
  split.
  - vm_compute. lia.
  - apply (proj2 (title_rule [] (u "Solar power") None)). vm_compute. lia.
Defined.

(** C8 as stated fails: a title of three letters separated by spaces has
    only 3 non-whitespace characters and is accepted. *)
Lemma title_rule_counterexample :
  count_nonspace (u "a b c") = 3%nat
  /\ title_rejected (u "a b c") = false
  /\ validate (u "Ahmed Ali Omar") (u "a b c") (Some (sample_pdf 4)) = [].
Proof. vm_compute. repeat split. Qed.

(** ** The file rules *)

(** C7: with a file chosen, the size error is reported exactly when the
    size exceeds 10 * 1024 * 1024 bytes; a file of exactly that size raises
    no size error and one a byte larger does. *)
Theorem size_rule_boundary (student_name project_title name : pystr)
    (data : list N) (f : UploadedFile) :
  size_limit = 10485760%Z
  /\ (In err_size (validate student_name project_title (Some f))
        <-> (uf_size f > size_limit)%Z)
  /\ ~ In err_size (validate student_name project_title
                      (Some (mkUploaded name (10 * 1024 * 1024) data)))
  /\ In err_size (validate student_name project_title
                    (Some (mkUploaded name (10 * 1024 * 1024 + 1) data))).
Proof.
  split; [reflexivity|].
  split; [|split].
  - rewrite In_err_size. simpl. rewrite Z.gtb_ltb, Z.ltb_lt. lia.
  - rewrite In_err_size. simpl. discriminate.
  - rewrite In_err_size. reflexivity.
Qed.

(** C10: the size rule is looked at only when a file was chosen, so the
    missing-file error and the size error never appear together, and a
    submission reports at most three of the four messages. *)
Theorem no_file_excludes_size (student_name project_title : pystr)
    (uploaded_file : option UploadedFile) :
  (size_rejected uploaded_file = true -> file_missing uploaded_file = false)
  /\ ~ (In err_no_file (validate student_name project_title uploaded_file)
        /\ In err_size (validate student_name project_title uploaded_file))
  /\ (length (validate student_name project_title uploaded_file) <= 3)%nat.
Proof.
  split; [|split].
  - destruct uploaded_file; simpl; [reflexivity | discriminate].
  - rewrite In_err_no_file, In_err_size.
    destruct uploaded_file; simpl; intros [A B]; discriminate.
  - unfold validate, append_if.
    destruct (name_rejected student_name), (title_rejected project_title),
      uploaded_file as [f|]; cbn [file_missing size_rejected];
      try destruct (uf_size f >? size_limit)%Z;
      cbn [app length]; lia.
Qed.

Lemma no_file_excludes_size_witness :
  size_rejected (Some (sample_pdf 10485761)) = true
  /\ file_missing (Some (sample_pdf 10485761)) = false.
Proof.
  split.
  - reflexivity.
  - apply (proj1 (no_file_excludes_size [] [] (Some (sample_pdf 10485761)))).
    reflexivity.
Defined.

(** ** The scripted outcomes *)

Lemma external_pass (w : World) :
  next_outcome w = None -> external w = (Ok tt, advance w).
Proof. unfold external; intros ->; reflexivity. Qed.

Lemma external_fail (w : World) (msg : pystr) :
  next_outcome w = Some msg -> external w = (Raise msg, advance w).
Proof. unfold external; intros ->; reflexivity. Qed.

Lemma drive_advance (w : World) : drive (advance w) = drive w.
Proof. unfold advance; destruct (outcomes w); reflexivity. Qed.

Lemma submissions_advance (w : World) : submissions (advance w) = submissions w.
Proof. unfold advance; destruct (outcomes w); reflexivity. Qed.

Lemma screen_advance (w : World) : screen (advance w) = screen w.
Proof. unfold advance; destruct (outcomes w); reflexivity. Qed.

Lemma outcomes_advance (w : World) : outcomes (advance w) = tl (outcomes w).
Proof. unfold advance; destruct (outcomes w) eqn:E; simpl; auto. Qed.




(** ** Sequencing *)

Lemma bind_ok {A B} (m : M A) (k : A -> M B) (w w' : World) (a : A) :
  m w = (Ok a, w') -> bind m k w = k a w'.
Proof. unfold bind; intros ->; reflexivity. Qed.

Lemma bind_raise {A B} (m : M A) (k : A -> M B) (w w' : World) (e : pystr) :
  m w = (Raise e, w') -> bind m k w = (Raise e, w').
Proof. unfold bind; intros ->; reflexivity. Qed.

Lemma try_ok {A} (m : M A) (h : pystr -> M A) (w w' : World) (a : A) :
  m w = (Ok a, w') -> try_except m h w = (Ok a, w').
Proof. unfold try_except; intros ->; reflexivity. Qed.

Lemma try_raise {A} (m : M A) (h : pystr -> M A) (w w' : World) (e : pystr) :
  m w = (Raise e, w') -> try_except m h w = h e w'.
Proof. unfold try_except; intros ->; reflexivity. Qed.

(** ** Folder lookup and creation *)

Section BackendFacts.

Variable mint : list DriveFile -> pystr.
Variable view_link : pystr -> pystr.

Lemma files_list_pass (q : Query) (n : nat) (w : World) :
  next_outcome w = None ->
  files_list q n w = (Ok (firstn n (filter (matches q) (drive w))), advance w).
Proof.
  intros H. unfold files_list, bind. rewrite (external_pass w H).
  rewrite drive_advance. reflexivity.
Qed.

Lemma files_create_pass (name mime : pystr) (parents : list pystr)
    (media : option (list N)) (w : World) :
  next_outcome w = None ->
  files_create mint view_link name mime parents media w =
    (Ok (mkFile (mint (drive w)) name mime parents media (view_link (mint (drive w))) []),
     set_drive (drive w ++ [mkFile (mint (drive w)) name mime parents media
                              (view_link (mint (drive w))) []])
       (advance w)).
Proof.
  intros H. unfold files_create, bind. rewrite (external_pass w H).
  rewrite drive_advance. reflexivity.
Qed.

(** What one call does, by what the search lists, when the calls it makes
    go through. *)
Lemma find_or_create_folder_run (folder_name : pystr)
    (parent_id : option pystr) (w : World) :
  next_outcome w = None ->
  match filter (matches (folder_query folder_name parent_id)) (drive w) with
  | f :: _ =>
      find_or_create_folder mint view_link folder_name parent_id w
      = (Ok (f_id f), advance w)
  | [] =>
      next_outcome (advance w) = None ->
      find_or_create_folder mint view_link folder_name parent_id w
      = (Ok (mint (drive w)),
         set_drive
           (drive w ++ [new_folder mint view_link folder_name parent_id (drive w)])
           (advance (advance w)))
  end.
Proof.
  intros H.
  destruct (filter (matches (folder_query folder_name parent_id)) (drive w))
    as [|f rest] eqn:E.
  - intros H'.
    unfold find_or_create_folder, try_except, bind.
    rewrite (files_list_pass _ 1 w H), E. cbn [firstn].
    rewrite (files_create_pass _ _ _ _ _ H'), drive_advance.
    reflexivity.
  - unfold find_or_create_folder, try_except, bind.
    rewrite (files_list_pass _ 1 w H), E.
    reflexivity.
Qed.

(** The search asks for the exact name, the folder type and, when a
    non-empty parent id is given, that parent among the parents. *)
Lemma matches_folder_query (folder_name : pystr) (parent_id : option pystr)
    (f : DriveFile) :
  matches (folder_query folder_name parent_id) f = true
  <-> f_name f = folder_name
      /\ f_mime f = folder_mime
      /\ match given parent_id with
         | Some p => In p (f_parents f)
         | None => True
         end.
Proof.
  unfold matches, folder_query. cbn [q_name q_mime q_parent].
  rewrite !andb_true_iff, !pystr_eqb_eq.
  destruct (given parent_id) as [p|].
  - rewrite existsb_exists. split.
    + intros [[A B] (x & I & E)]. apply pystr_eqb_eq in E. subst x.
      split; [exact A | split; [exact B | exact I]].
    + intros (A & B & I). split; [split; [exact A | exact B]|].
      exists p. split; [exact I|]. apply pystr_eqb_refl.
  - split.
    + intros [[A B] _]. split; [exact A | split; [exact B | exact Logic.I]].
    + intros (A & B & _). split; [split; [exact A | exact B] | reflexivity].
Qed.

(** C1, as the code has it: the search is for the exact name among folders,
    under the parent when one is given; when it lists at least one folder
    the call returns the id of the first one listed and stores nothing,
    however many folders match; only when it lists none does the call store
    a new folder, under the given parent or in the root, and return the id
    the provider gave it. *)
Theorem find_or_create_folder_first_match (folder_name : pystr)
    (parent_id : option pystr) (w : World) :
  (forall f,
      matches (folder_query folder_name parent_id) f = true
      <-> f_name f = folder_name
          /\ f_mime f = folder_mime
          /\ match given parent_id with
             | Some p => In p (f_parents f)
             | None => True
             end)
  /\ (next_outcome w = None ->
      match filter (matches (folder_query folder_name parent_id)) (drive w) with
      | f :: _ =>
          find_or_create_folder mint view_link folder_name parent_id w
          = (Ok (f_id f), advance w)
      | [] =>
          next_outcome (advance w) = None ->
          find_or_create_folder mint view_link folder_name parent_id w
          = (Ok (mint (drive w)),
             set_drive
               (drive w ++ [new_folder mint view_link folder_name parent_id (drive w)])
               (advance (advance w)))
      end).
Proof.
  split.
  - intros f. apply matches_folder_query.
  - exact (find_or_create_folder_run folder_name parent_id w).
Qed.

Lemma resolves_app (folder_name : pystr) (parent_id : option pystr) (id : pystr)
    (fs ext : list DriveFile) :
  resolves folder_name parent_id id fs -> resolves folder_name parent_id id (fs ++ ext).
Proof.
  intros (f & rest & E & I).
  exists f, (rest ++ filter (matches (folder_query folder_name parent_id)) ext).
  rewrite filter_app, E. split; [reflexivity | exact I].
Qed.

Lemma matches_new_folder (folder_name : pystr) (parent_id : option pystr)
    (fs : list DriveFile) :
  matches (folder_query folder_name parent_id)
    (new_folder mint view_link folder_name parent_id fs) = true.
Proof.
  unfold matches, new_folder, folder_query, parents_of.
  cbn [f_name f_mime f_parents q_name q_mime q_parent].
  rewrite !pystr_eqb_refl.
  destruct (given parent_id) as [p|]; [|reflexivity].
  cbn [existsb andb]. rewrite pystr_eqb_refl. reflexivity.
Qed.




(** ** Uploading *)

(** The media body is never built, so the call stops at its first line. *)
Lemma upload_file_to_drive_raises (file_content : list N) (file_name folder_id : pystr)
    (w : World) :
  upload_file_to_drive mint view_link file_content file_name folder_id w
  = (Raise (upload_error media_type_error), w).
Proof. reflexivity. Qed.

(** C9, on the code as it is: every call of [upload_file_to_drive] raises
    the upload failure that wraps the [TypeError] of the media constructor,
    whatever the content, the name and the folder, and leaves the world as
    it found it: no call reaches the provider, no file is stored, no
    permission is granted and no link is returned. *)
Theorem upload_file_to_drive_always_raises (file_content : list N)
    (file_name folder_id : pystr) (w : World) :
  upload_file_to_drive mint view_link file_content file_name folder_id w
  = (Raise (upload_error media_type_error), w)
  /\ (forall url w',
        upload_file_to_drive mint view_link file_content file_name folder_id w
        <> (Ok url, w')).
Proof.
  split; [apply upload_file_to_drive_raises|].
  intros url w' H. rewrite upload_file_to_drive_raises in H. discriminate H.
Qed.

(** ** What the Drive helpers leave alone *)

Lemma framed_ret {A} (a : A) : framed (ret a).
Proof. intros w; split; reflexivity. Qed.

Lemma framed_raise {A} (e : pystr) : framed (@raise A e).
Proof. intros w; split; reflexivity. Qed.

Lemma framed_bind {A B} (m : M A) (k : A -> M B) :
  framed m -> (forall a, framed (k a)) -> framed (bind m k).
Proof.
  intros Hm Hk w. unfold bind.
  destruct (Hm w) as [S1 S2]. destruct (m w) as [[a|e] w']; cbn [snd] in *.
  - destruct (Hk a w') as [T1 T2]. split; congruence.
  - split; assumption.
Qed.

Lemma framed_try {A} (m : M A) (h : pystr -> M A) :
  framed m -> (forall e, framed (h e)) -> framed (try_except m h).
Proof.
  intros Hm Hh w. unfold try_except.
  destruct (Hm w) as [S1 S2]. destruct (m w) as [[a|e] w']; cbn [snd] in *.
  - split; assumption.
  - destruct (Hh e w') as [T1 T2]. split; congruence.
Qed.

Lemma framed_external : framed external.
Proof.
  intros w. unfold external.
  destruct (next_outcome w); cbn [snd];
    rewrite submissions_advance, screen_advance; split; reflexivity.
Qed.

Lemma framed_find_or_create_folder (folder_name : pystr) (parent_id : option pystr) :
  framed (find_or_create_folder mint view_link folder_name parent_id).
Proof.
  unfold find_or_create_folder.
  apply framed_try; [|intros; apply framed_raise].
  apply framed_bind.
  - unfold files_list. apply framed_bind; [apply framed_external|].
    intros _ w; split; reflexivity.
  - intros [|f rest]; [|apply framed_ret].
    apply framed_bind; [|intros; apply framed_ret].
    unfold files_create. apply framed_bind; [apply framed_external|].
    intros _ w; split; reflexivity.
Qed.

Lemma framed_create_folder_structure (year semester grade section : pystr) :
  framed (create_folder_structure mint view_link year semester grade section).
Proof.
  unfold create_folder_structure.
  apply framed_try; [|intros; apply framed_raise].
  repeat (apply framed_bind; [apply framed_find_or_create_folder | intros]).
  apply framed_ret.
Qed.

Lemma framed_upload_file_to_drive (file_content : list N) (file_name folder_id : pystr) :
  framed (upload_file_to_drive mint view_link file_content file_name folder_id).
Proof.
  intros w. rewrite upload_file_to_drive_raises. split; reflexivity.
Qed.

(** ** Saving the row *)

Lemma save_submission_pass (data : Submission) (w : World) :
  next_outcome w = None ->
  save_submission data w
  = (Ok [data], set_submissions (submissions w ++ [data]) (advance w)).
Proof.
  intros H. unfold save_submission, table_insert. apply try_ok.
  rewrite (bind_ok _ _ _ _ _ (external_pass w H)), submissions_advance.
  reflexivity.
Qed.

Lemma save_submission_fail (data : Submission) (w : World) (e : pystr) :
  next_outcome w = Some e ->
  save_submission data w = (Raise (save_error e), advance w).
Proof.
  intros H. unfold save_submission, table_insert.
  erewrite try_raise; [reflexivity|].
  apply bind_raise, external_fail, H.
Qed.

(** ** The submission branch *)

Variable now_isoformat : pystr.
Variable now_strftime : pystr.

Lemma st_run (e : Element) (w : World) : st e w = (Ok tt, shown [e] w).
Proof. reflexivity. Qed.

Lemma shown_shown (es es' : list Element) (w : World) :
  shown es' (shown es w) = shown (es ++ es') w.
Proof. unfold shown; cbn [drive submissions outcomes screen]. rewrite app_assoc. reflexivity. Qed.

Lemma st_each_run (mk : pystr -> Element) (msgs : list pystr) (w : World) :
  msgs <> [] -> st_each mk msgs w = (Ok tt, shown (map mk msgs) w).
Proof.
  revert w; induction msgs as [|m r IH]; intros w H; [contradiction|].
  cbn [st_each map]. rewrite (bind_ok _ _ _ _ _ (st_run (mk m) w)).
  destruct r as [|m' r'].
  - reflexivity.
  - rewrite IH by discriminate. rewrite shown_shown. reflexivity.
Qed.

(** A form with errors: the messages go on the page and nothing else
    happens. *)
Lemma process_submission_rejected
    (current_year current_semester selected_grade selected_section : pystr)
    (student_name project_title : pystr) (uploaded_file : option UploadedFile)
    (w : World) :
  validate student_name project_title uploaded_file <> [] ->
  process_submission mint view_link now_isoformat now_strftime
    current_year current_semester selected_grade selected_section
    student_name project_title uploaded_file w
  = (Ok tt, shown (map StError (validate student_name project_title uploaded_file)) w).
Proof.
  intros H. unfold process_submission. cbv zeta.
  destruct (validate student_name project_title uploaded_file) as [|m r] eqn:E;
    [contradiction|].
  apply st_each_run. discriminate.
Qed.

(** A valid form whose folders were resolved: the upload raises, and the
    submission ends there. *)
Lemma process_submission_upload_raises
    (current_year current_semester selected_grade selected_section : pystr)
    (student_name project_title : pystr) (uf : UploadedFile)
    (w w1 : World) (folder_id : pystr) :
  validate student_name project_title (Some uf) = [] ->
  create_folder_structure mint view_link current_year current_semester
    selected_grade selected_section (shown [StSpinner spinner_text] w)
  = (Ok folder_id, w1) ->
  process_submission mint view_link now_isoformat now_strftime
    current_year current_semester selected_grade selected_section
    student_name project_title (Some uf) w
  = (Ok tt,
     shown [StError (failure_text (upload_error media_type_error));
            StWarning not_saved_text] w1).
Proof.
  intros V Hc. unfold process_submission. cbv zeta. rewrite V.
  rewrite (bind_ok _ _ _ _ _ (st_run _ w)).
  erewrite try_raise.
  2:{ rewrite (bind_ok _ _ _ _ _ Hc). unfold read.
      rewrite (bind_ok _ _ _ _ _ (eq_refl : ret (uf_data uf) w1 = (Ok _, w1))).
      apply bind_raise. apply upload_file_to_drive_raises. }
  rewrite (bind_ok _ _ _ _ _ (st_run _ _)), st_run, shown_shown. reflexivity.
Qed.

Lemma validate_length (student_name project_title : pystr)
    (uploaded_file : option UploadedFile) :
  (length (validate student_name project_title uploaded_file) <= 3)%nat.
Proof.
  unfold validate, append_if.
  destruct (name_rejected student_name), (title_rejected project_title),
    uploaded_file as [f|]; cbn [file_missing size_rejected];
    try destruct (uf_size f >? size_limit)%Z;
    cbn [app length]; lia.
Qed.

Lemma validate_NoDup (student_name project_title : pystr)
    (uploaded_file : option UploadedFile) :
  NoDup (validate student_name project_title uploaded_file).
Proof.
  unfold validate, append_if.
  destruct (name_rejected student_name), (title_rejected project_title),
    uploaded_file as [f|]; cbn [file_missing size_rejected];
    try destruct (uf_size f >? size_limit)%Z;
    cbn [app];
    repeat (constructor; [cbn [In]; intros Hin; repeat destruct Hin as [Hin|Hin];
                          try contradiction; err_clash |]);
    constructor.
Qed.

(** C3, as the code has it: every rule the form breaks puts its own message
    on the list, whatever the other rules say; the messages are pairwise
    different; there are never more than three, the size rule being looked
    at only on a chosen file; and a form with at least one message shows
    exactly these messages and makes no external call: storage, table and
    the script of outcomes are left as they were. *)
Theorem validation_errors_reported
    (current_year current_semester selected_grade selected_section : pystr)
    (student_name project_title : pystr) (uploaded_file : option UploadedFile)
    (w : World) :
  let errors := validate student_name project_title uploaded_file in
  (In err_name errors <-> name_rejected student_name = true)
  /\ (In err_title errors <-> title_rejected project_title = true)
  /\ (In err_no_file errors <-> uploaded_file = None)
  /\ (In err_size errors <->
        exists f, uploaded_file = Some f /\ (uf_size f > size_limit)%Z)
  /\ NoDup errors
  /\ (length errors <= 3)%nat
  /\ (errors <> [] ->
      exists w',
        process_submission mint view_link now_isoformat now_strftime
          current_year current_semester selected_grade selected_section
          student_name project_title uploaded_file w = (Ok tt, w')
        /\ drive w' = drive w
        /\ submissions w' = submissions w
        /\ outcomes w' = outcomes w
        /\ screen w' = screen w ++ map StError errors).
Proof.
  intros errors. subst errors.
  split; [apply In_err_name|].
  split; [apply In_err_title|].
  split.
  { rewrite In_err_no_file. destruct uploaded_file; cbn [file_missing];
      split; intros; congruence. }
  split.
  { rewrite In_err_size. destruct uploaded_file as [f|]; cbn [size_rejected].
    - rewrite Z.gtb_ltb, Z.ltb_lt. split.
      + intros H; exists f; split; [reflexivity | lia].
      + intros (f' & E & H); injection E as <-; lia.
    - split; [discriminate | intros (f' & E & _); discriminate]. }
  split; [apply validate_NoDup|].
  split; [apply validate_length|].
  intros H. eexists. split.
  - apply process_submission_rejected. exact H.
  - repeat split; reflexivity.
Qed.

Lemma upload_file_name_eq (student_name project_title : pystr) :
  upload_file_name student_name project_title
  = map underscore student_name ++ [95] ++ firstn 30 project_title ++ u ".pdf".
Proof.
  unfold upload_file_name, replace, slice_to. cbv zeta.
  change (u " ") with [32]. change (u "_") with [95].
  rewrite replace_from_char. reflexivity.
Qed.

(** C4: the upload is named by the student name with every space turned
    into an underscore, an underscore, the first 30 characters of the title
    as they are, and [.pdf]; on the example of the specification this gives
    the stated name. *)
Theorem upload_file_name_shape (student_name project_title : pystr) :
  upload_file_name student_name project_title
  = map underscore student_name ++ [95] ++ firstn 30 project_title ++ u ".pdf"
  /\ upload_file_name (u "Ahmed Ali Omar") (u "Renewable Energy and Its Future Impact")
     = u "Ahmed_Ali_Omar_Renewable Energy and Its Futur.pdf".
Proof.
  split; [apply upload_file_name_eq|].
  vm_compute. reflexivity.
Qed.

End BackendFacts.

(** ** The theorems at concrete inputs *)

Lemma find_or_create_folder_first_match_witness :
  find_or_create_folder sample_mint sample_link (u "2025") None twin_world
  = (Ok (u "a"), twin_world).
Proof.
  pose proof (proj2 (find_or_create_folder_first_match sample_mint sample_link
                       (u "2025") None twin_world) eq_refl) as H.
  vm_compute in H. vm_compute. exact H.
Defined.

(** C1 as stated fails: with two folders of the name in the root the search
    has more than one match, and the call stores nothing and returns the id
    of the first. *)
Lemma find_or_create_folder_counterexample :
  length (filter (matches (folder_query (u "2025") None)) (drive twin_world)) = 2%nat
  /\ fst (find_or_create_folder sample_mint sample_link (u "2025") None twin_world)
     = Ok (u "a")
  /\ drive (snd (find_or_create_folder sample_mint sample_link (u "2025") None
                   twin_world))
     = drive twin_world.
Proof. vm_compute. repeat split. Qed.

Lemma validation_errors_reported_witness :
  exists w',
    process_submission sample_mint sample_link
      (u "2026-11-03T10:00:00") (u "2026-11-03 10:00")
      (u "2025") (u "1") (u "10") (u "A") [] [] None empty_world = (Ok tt, w')
    /\ drive w' = []
    /\ submissions w' = []
    /\ outcomes w' = []
    /\ screen w' = [StError err_name; StError err_title; StError err_no_file].
Proof.
  destruct (validation_errors_reported sample_mint sample_link
              (u "2026-11-03T10:00:00") (u "2026-11-03 10:00")
              (u "2025") (u "1") (u "10") (u "A") [] [] None empty_world)
    as (_ & _ & _ & _ & _ & _ & H).
  apply H. discriminate.
Defined.

(** C3 as stated fails on its last part: the form with no name, no title
    and no file meets none of the four rules, and three messages come out,
    not four; no form gets four. *)
Lemma validation_errors_counterexample :
  SpecRules.name_ok [] = false
  /\ SpecRules.title_ok [] = false
  /\ SpecRules.file_chosen None = false
  /\ SpecRules.size_ok None = false
  /\ validate [] [] None = [err_name; err_title; err_no_file]
  /\ (forall n t f, length (validate n t f) <> 4%nat).
Proof.
  repeat (split; [reflexivity|]).
  intros n t f. pose proof (validate_length n t f). lia.
Qed.


(** ** Runs of the model *)

Example utf8_decode_warning_sign : firstn 3 err_name = [9888; 65039; 32].
Proof. vm_compute. reflexivity. Qed.

Example err_name_length : length err_name = 50%nat.
Proof. vm_compute. reflexivity. Qed.

Example strip_inner_space :
  strip (u "  a b  ") = u "a b" /\ strip (u "   ") = [].
Proof. vm_compute. split; reflexivity. Qed.

Example fresh_path_stores_four_folders :
  map (fun f => (f_id f, f_name f, f_parents f))
      (drive (snd (create_folder_structure sample_mint sample_link
                     (u "2025") (u "1") (u "10") (u "A") empty_world)))
  = [(u "id0", u "2025", []); (u "id1", u "1", [u "id0"]);
     (u "id2", u "10", [u "id1"]); (u "id3", u "A", [u "id2"])].
Proof. vm_compute. reflexivity. Qed.

Example folder_failure_is_wrapped_twice :
  fst (create_folder_structure sample_mint sample_link
         (u "2025") (u "1") (u "10") (u "A") (failing_after 0 (u "timeout")))
  = Raise (structure_error (folder_error (u "2025") (u "timeout"))).
Proof. vm_compute. reflexivity. Qed.

(** ** More on validation *)

Lemma lstrip_all_space (s : pystr) : forallb isspace s = true -> lstrip s = [].
Proof.
  induction s as [|c r IH]; cbn [forallb lstrip]; [reflexivity|].
  intros H. apply andb_true_iff in H as [Hc Hr]. rewrite Hc. exact (IH Hr).
Qed.

Lemma lstrip_app_space (l s : pystr) :
  forallb isspace l = true -> lstrip (l ++ s) = lstrip s.
Proof.
  induction l as [|c r IH]; cbn [forallb app lstrip]; [reflexivity|].
  intros H. apply andb_true_iff in H as [Hc Hr]. rewrite Hc. exact (IH Hr).
Qed.

Lemma forallb_rev {A} (f : A -> bool) (l : list A) :
  forallb f l = true -> forallb f (rev l) = true.
Proof.
  rewrite !forallb_forall. intros H x Hx. apply H, in_rev, Hx.
Qed.

Lemma rstrip_app_space (s r : pystr) :
  forallb isspace r = true -> rstrip (s ++ r) = rstrip s.
Proof.
  intros H. unfold rstrip. rewrite rev_app_distr.
  rewrite (lstrip_app_space (rev r) (rev s) (forallb_rev _ _ H)). reflexivity.
Qed.

Lemma strip_app_space_r (s r : pystr) :
  forallb isspace r = true -> strip (s ++ r) = strip s.
Proof.
  intros H. unfold strip.
  induction s as [|c s' IH]; cbn [app lstrip].
  - rewrite (lstrip_all_space r H). reflexivity.
  - destruct (isspace c); [exact IH|].
    exact (rstrip_app_space (c :: s') r H).
Qed.

Lemma strip_padding (l s r : pystr) :
  forallb isspace l = true -> forallb isspace r = true ->
  strip (l ++ s ++ r) = strip s.
Proof.
  intros Hl Hr.
  transitivity (strip (s ++ r)); [|apply strip_app_space_r, Hr].
  unfold strip. rewrite (lstrip_app_space l (s ++ r) Hl). reflexivity.
Qed.

Lemma rejected_by_strip (k : Z) (a b : pystr) :
  strip a = strip b ->
  (negb (truthy a) || (len (strip a) <? k))%Z%bool = true ->
  (0 < k)%Z ->
  (negb (truthy b) || (len (strip b) <? k))%Z%bool = true.
Proof.
  intros E H K. rewrite orb_true_iff in *. right.
  destruct H as [H|H].
  - destruct a; [|discriminate]. rewrite <- E, strip_nil.
    apply Z.ltb_lt. unfold len. cbn [length]. lia.
  - rewrite <- E. exact H.
Qed.

Lemma rejected_strip_eq (k : Z) (a b : pystr) :
  (0 < k)%Z -> strip a = strip b ->
  (negb (truthy a) || (len (strip a) <? k))%Z%bool
  = (negb (truthy b) || (len (strip b) <? k))%Z%bool.
Proof.
  intros K E.
  destruct (negb (truthy a) || (len (strip a) <? k)%Z) eqn:A;
  destruct (negb (truthy b) || (len (strip b) <? k)%Z) eqn:B; try reflexivity.
  - rewrite (rejected_by_strip k a b E A K) in B. discriminate.
  - rewrite (rejected_by_strip k b a (eq_sym E) B K) in A. discriminate.
Qed.

Lemma validate_nil_iff (n t : pystr) (f : option UploadedFile) :
  validate n t f = []
  <-> name_rejected n = false /\ title_rejected t = false
      /\ file_missing f = false /\ size_rejected f = false.
Proof.
  unfold validate, append_if.
  destruct (name_rejected n), (title_rejected t), (file_missing f),
    (size_rejected f); cbn [app];
    (split; [intros H; try discriminate H; repeat split
            | intros (A & B & C & D); try discriminate; reflexivity]).
Qed.

(** X1: a form passes validation exactly when the stripped name has at least
    6 characters, the stripped title at least 5, and a file was chosen whose
    size is at most 10 * 1024 * 1024. *)
Theorem validate_accepts_iff (student_name project_title : pystr)
    (uploaded_file : option UploadedFile) :
  validate student_name project_title uploaded_file = []
  <-> (6 <= len (strip student_name))%Z
      /\ (5 <= len (strip project_title))%Z
      /\ exists f, uploaded_file = Some f /\ (uf_size f <= 10485760)%Z.
Proof.
  rewrite validate_nil_iff.
  assert (Hn : name_rejected student_name = false <-> (6 <= len (strip student_name))%Z).
  { rewrite <- Bool.not_true_iff_false, name_rejected_iff. lia. }
  assert (Ht : title_rejected project_title = false <-> (5 <= len (strip project_title))%Z).
  { rewrite <- Bool.not_true_iff_false, title_rejected_iff. lia. }
  rewrite Hn, Ht.
  destruct uploaded_file as [f|]; cbn [file_missing size_rejected].
  - change size_limit with 10485760%Z. rewrite Z.gtb_ltb, Z.ltb_ge. split.
    + intros (A & B & _ & D). repeat split; try assumption. exists f. auto.
    + intros (A & B & f' & E & D). injection E as <-. auto.
  - split.
    + intros (_ & _ & C & _). discriminate.
    + intros (_ & _ & f' & E & _). discriminate.
Qed.

(** X2: whitespace around the name or the title changes nothing for
    validation: the same messages come out. *)
Theorem validate_ignores_padding (l r l' r' student_name project_title : pystr)
    (uploaded_file : option UploadedFile) :
  forallb isspace l = true -> forallb isspace r = true ->
  forallb isspace l' = true -> forallb isspace r' = true ->
  validate (l ++ student_name ++ r) (l' ++ project_title ++ r') uploaded_file
  = validate student_name project_title uploaded_file.
Proof.
  intros Hl Hr Hl' Hr'. unfold validate, name_rejected, title_rejected.
  rewrite (rejected_strip_eq 6 (l ++ student_name ++ r) student_name)
    by (try lia; apply strip_padding; assumption).
  rewrite (rejected_strip_eq 5 (l' ++ project_title ++ r') project_title)
    by (try lia; apply strip_padding; assumption).
  reflexivity.
Qed.

Lemma validate_ignores_padding_witness :
  validate (u "  " ++ u "Ahmed" ++ u " ") ([9] ++ u "Solar" ++ []) None
  = validate (u "Ahmed") (u "Solar") None.
Proof.
  apply (validate_ignores_padding (u "  ") (u " ") [9] [] (u "Ahmed") (u "Solar") None);
    reflexivity.
Defined.

(** X3: a name made only of whitespace is rejected, and so is a title made
    only of whitespace. *)
Theorem blank_fields_rejected (student_name project_title : pystr)
    (uploaded_file : option UploadedFile) :
  (forallb isspace student_name = true ->
   In err_name (validate student_name project_title uploaded_file))
  /\ (forallb isspace project_title = true ->
      In err_title (validate student_name project_title uploaded_file)).
Proof.
  split; intros H.
  - apply In_err_name, name_rejected_iff.
    unfold strip. rewrite (lstrip_all_space _ H). unfold len. cbn. lia.
  - apply In_err_title, title_rejected_iff.
    unfold strip. rewrite (lstrip_all_space _ H). unfold len. cbn. lia.
Qed.

Lemma blank_fields_rejected_witness :
  In err_name (validate (u "        ") (u "Solar power") None)
  /\ In err_title (validate (u "Ahmed Ali Omar") [32; 9; 12288; 32; 32; 32] None).
Proof.
  split.
  - apply (proj1 (blank_fields_rejected (u "        ") (u "Solar power") None)).
    reflexivity.
  - apply (proj2 (blank_fields_rejected (u "Ahmed Ali Omar")
                    [32; 9; 12288; 32; 32; 32] None)).
    reflexivity.
Defined.

(** X4: the generated file name has the length of the name, plus one, plus
    at most 30 for the title, plus 4; and its part before the separating
    underscore holds no space. *)
Theorem upload_file_name_length (student_name project_title : pystr) :
  length (upload_file_name student_name project_title)
  = (length student_name + 1 + Nat.min 30 (length project_title) + 4)%nat
  /\ ~ In 32 (firstn (length student_name)
                (upload_file_name student_name project_title)).
Proof.
  rewrite upload_file_name_eq. split.
  - rewrite !length_app, length_map, length_firstn.
    change (length (u ".pdf")) with 4%nat. cbn [length]. lia.
  - rewrite firstn_app, length_map, Nat.sub_diag, firstn_O, app_nil_r.
    rewrite <- (length_map underscore student_name), firstn_all.
    rewrite in_map_iff. intros (c & E & _). unfold underscore in E.
    destruct (c =? 32) eqn:C; [discriminate|].
    apply N.eqb_neq in C. congruence.
Qed.

(** ** Folder lookup when the provider chooses the order *)




Section ListingOrder.

Variable mint : list DriveFile -> pystr.
Variable view_link : pystr -> pystr.
Variable arrange : list DriveFile -> list DriveFile.

(** The provider answers with the matching folders, all of them and no
    other, in the order of its choice. *)
Hypothesis arrange_perm : forall l, Permutation (arrange l) l.








End ListingOrder.






(** ** The first failure of a script *)

Lemma first_failure_next (w : World) (e : pystr) :
  next_outcome w = Some e -> first_failure (outcomes w) = Some e.
Proof.
  unfold next_outcome. destruct (outcomes w) as [|[x|] r]; cbn [hd first_failure];
    intros H; try discriminate H; exact H.
Qed.

Lemma first_failure_advance (w : World) :
  next_outcome w = None ->
  first_failure (outcomes (advance w)) = first_failure (outcomes w).
Proof.
  unfold next_outcome, advance.
  destruct (outcomes w) as [|[x|] r] eqn:E; cbn [hd first_failure set_outcomes outcomes];
    intros H; try discriminate H; [rewrite E|]; reflexivity.
Qed.

(** ** Folders: every outcome *)

Section BackendMore.

Variable mint : list DriveFile -> pystr.
Variable view_link : pystr -> pystr.

Lemma find_or_create_folder_list_fail (folder_name : pystr) (parent_id : option pystr)
    (w : World) (e : pystr) :
  next_outcome w = Some e ->
  find_or_create_folder mint view_link folder_name parent_id w
  = (Raise (folder_error folder_name e), advance w).
Proof.
  intros H. unfold find_or_create_folder.
  erewrite try_raise; [reflexivity|].
  apply bind_raise. unfold files_list. apply bind_raise, external_fail, H.
Qed.

Lemma find_or_create_folder_create_fail (folder_name : pystr)
    (parent_id : option pystr) (w : World) (e : pystr) :
  next_outcome w = None ->
  filter (matches (folder_query folder_name parent_id)) (drive w) = [] ->
  next_outcome (advance w) = Some e ->
  find_or_create_folder mint view_link folder_name parent_id w
  = (Raise (folder_error folder_name e), advance (advance w)).
Proof.
  intros H E H'. unfold find_or_create_folder.
  erewrite try_raise; [reflexivity|].
  rewrite (bind_ok _ _ _ _ _ (files_list_pass _ 1 w H)), E. cbn [firstn].
  apply bind_raise. unfold files_create. apply bind_raise, external_fail, H'.
Qed.

(** One call, whatever the script: it stores at most one file, a folder of
    the name asked for, and only when it returns; what it returns is what the
    search lists first afterwards; what it raises is the message of the
    call that failed, the first failure of the script, behind the folder's
    name. *)
Lemma find_or_create_folder_summary (folder_name : pystr) (parent_id : option pystr)
    (w : World) :
  exists r w' ext,
    find_or_create_folder mint view_link folder_name parent_id w = (r, w')
    /\ drive w' = drive w ++ ext
    /\ (length ext <= 1)%nat
    /\ Forall (fun f => f_mime f = folder_mime /\ f_name f = folder_name) ext
    /\ match r with
       | Ok id =>
           resolves folder_name parent_id id (drive w')
           /\ first_failure (outcomes w') = first_failure (outcomes w)
       | Raise m =>
           ext = []
           /\ exists e,
               first_failure (outcomes w) = Some e
               /\ m = folder_error folder_name e
       end.
Proof.
  destruct (next_outcome w) as [e|] eqn:H.
  { eexists _, _, []. split; [apply (find_or_create_folder_list_fail _ _ _ _ H)|].
    rewrite drive_advance, app_nil_r.
    split; [reflexivity|]. split; [cbn; lia|]. split; [constructor|].
    split; [reflexivity|]. exists e.
    split; [apply first_failure_next, H | reflexivity]. }
  pose proof (find_or_create_folder_run mint view_link folder_name parent_id w H) as F.
  destruct (filter (matches (folder_query folder_name parent_id)) (drive w))
    as [|f rest] eqn:E.
  - destruct (next_outcome (advance w)) as [e|] eqn:H'.
    + eexists _, _, [].
      split; [apply (find_or_create_folder_create_fail _ _ _ _ H E H')|].
      rewrite !drive_advance, app_nil_r.
      split; [reflexivity|]. split; [cbn; lia|]. split; [constructor|].
      split; [reflexivity|]. exists e.
      split; [|reflexivity].
      rewrite <- (first_failure_advance w H). apply first_failure_next, H'.
    + specialize (F eq_refl).
      eexists _, _, [_]. split; [exact F|].
      cbn [drive set_drive outcomes]. split; [reflexivity|]. split; [cbn; lia|].
      split; [repeat constructor|].
      split.
      * unfold resolves. rewrite filter_app, E. cbn [filter app].
        rewrite (matches_new_folder mint view_link).
        eexists _, _. split; reflexivity.
      * rewrite (first_failure_advance _ H'). apply (first_failure_advance w H).
  - eexists _, _, []. split; [exact F|].
    rewrite drive_advance, app_nil_r.
    split; [reflexivity|]. split; [cbn; lia|]. split; [constructor|].
    split; [|apply (first_failure_advance w H)].
    exists f, rest. split; [exact E | reflexivity].
Qed.

Lemma resolves_stored (folder_name : pystr) (parent_id : option pystr) (id : pystr)
    (fs : list DriveFile) :
  resolves folder_name parent_id id fs ->
  exists f,
    In f fs /\ f_id f = id /\ f_name f = folder_name /\ f_mime f = folder_mime
    /\ match given parent_id with
       | Some p => In p (f_parents f)
       | None => True
       end.
Proof.
  intros (f & rest & E & I). exists f.
  assert (Hin : In f (filter (matches (folder_query folder_name parent_id)) fs))
    by (rewrite E; left; reflexivity).
  apply filter_In in Hin as [Hin Hm].
  apply matches_folder_query in Hm as (A & B & C).
  split; [exact Hin|]. split; [exact I|]. split; [exact A|].
  split; [exact B | exact C].
Qed.

(** X5: whatever the storage calls do, [find_or_create_folder] stores at
    most one file and only a folder of the name asked for; when it returns
    an id, a stored folder has that id, that name and, when a parent was
    given, that parent; when it raises, nothing was stored and the message
    is the message of the call that failed, the first failure of the script,
    with the folder's name in front. *)
Theorem find_or_create_folder_outcome (folder_name : pystr)
    (parent_id : option pystr) (w : World) :
  exists r w' ext,
    find_or_create_folder mint view_link folder_name parent_id w = (r, w')
    /\ drive w' = drive w ++ ext
    /\ (length ext <= 1)%nat
    /\ Forall (fun f => f_mime f = folder_mime /\ f_name f = folder_name) ext
    /\ match r with
       | Ok id =>
           exists f,
             In f (drive w') /\ f_id f = id /\ f_name f = folder_name
             /\ f_mime f = folder_mime
             /\ match given parent_id with
                | Some p => In p (f_parents f)
                | None => True
                end
       | Raise m =>
           ext = []
           /\ exists e,
               first_failure (outcomes w) = Some e
               /\ m = folder_error folder_name e
       end.
Proof.
  destruct (find_or_create_folder_summary folder_name parent_id w)
    as (r & w' & ext & F & D & L & A & R).
  exists r, w', ext. repeat (split; [assumption|]).
  destruct r as [id|m]; [apply resolves_stored, (proj1 R) | exact R].
Qed.

Lemma folder_named_in (name : pystr) (names : list pystr) (ext : list DriveFile) :
  In name names ->
  Forall (fun f => f_mime f = folder_mime /\ f_name f = name) ext ->
  Forall (fun f => f_mime f = folder_mime /\ In (f_name f) names) ext.
Proof.
  intros Hin. apply Forall_impl. intros f [A B]. split; [exact A|].
  rewrite B. exact Hin.
Qed.

(** The four lookups, whatever the script. *)
Lemma create_folder_structure_summary (year semester grade section : pystr)
    (w : World) :
  exists r w' ext,
    create_folder_structure mint view_link year semester grade section w = (r, w')
    /\ drive w' = drive w ++ ext
    /\ (length ext <= 4)%nat
    /\ Forall (fun f => f_mime f = folder_mime
                        /\ In (f_name f) [year; semester; grade; section]) ext
    /\ match r with
       | Ok id =>
           exists y s g,
             resolves year None y (drive w')
             /\ resolves semester (Some y) s (drive w')
             /\ resolves grade (Some s) g (drive w')
             /\ resolves section (Some g) id (drive w')
       | Raise m =>
           exists e,
             first_failure (outcomes w) = Some e
             /\ ((find_or_create_folder mint view_link year None w = (Raise (folder_error year e), w')
                  /\ m = structure_error (folder_error year e))
                 \/ (exists y w1,
                       find_or_create_folder mint view_link year None w = (Ok y, w1)
                       /\ find_or_create_folder mint view_link semester (Some y) w1
                          = (Raise (folder_error semester e), w')
                       /\ m = structure_error (folder_error semester e))
                 \/ (exists y w1 s w2,
                       find_or_create_folder mint view_link year None w = (Ok y, w1)
                       /\ find_or_create_folder mint view_link semester (Some y) w1 = (Ok s, w2)
                       /\ find_or_create_folder mint view_link grade (Some s) w2
                          = (Raise (folder_error grade e), w')
                       /\ m = structure_error (folder_error grade e))
                 \/ (exists y w1 s w2 g w3,
                       find_or_create_folder mint view_link year None w = (Ok y, w1)
                       /\ find_or_create_folder mint view_link semester (Some y) w1 = (Ok s, w2)
                       /\ find_or_create_folder mint view_link grade (Some s) w2 = (Ok g, w3)
                       /\ find_or_create_folder mint view_link section (Some g) w3
                          = (Raise (folder_error section e), w')
                       /\ m = structure_error (folder_error section e)))
       end.
Proof.
  destruct (find_or_create_folder_summary year None w)
    as (r1 & w1 & e1 & F1 & D1 & L1 & A1 & R1).
  apply (folder_named_in year [year; semester; grade; section]) in A1;
    [|cbn; tauto].
  destruct r1 as [y|m].
  2:{ destruct R1 as (_ & e & FF & ->).
      exists (Raise (structure_error (folder_error year e))), w1, e1.
      split.
      { unfold create_folder_structure. erewrite try_raise; [reflexivity|].
        apply bind_raise. exact F1. }
      split; [exact D1|]. split; [lia|]. split; [exact A1|].
      exists e. split; [exact FF|]. left. split; [exact F1 | reflexivity]. }
  destruct R1 as [R1 FF1].
  destruct (find_or_create_folder_summary semester (Some y) w1)
    as (r2 & w2 & e2 & F2 & D2 & L2 & A2 & R2).
  apply (folder_named_in semester [year; semester; grade; section]) in A2;
    [|cbn; tauto].
  destruct r2 as [s|m].
  2:{ destruct R2 as (_ & e & FF & ->).
      exists (Raise (structure_error (folder_error semester e))), w2, (e1 ++ e2).
      split.
      { unfold create_folder_structure. erewrite try_raise; [reflexivity|].
        rewrite (bind_ok _ _ _ _ _ F1). apply bind_raise. exact F2. }
      split; [rewrite D2, D1, <- app_assoc; reflexivity|].
      split; [rewrite length_app; lia|].
      split; [apply Forall_app; split; assumption|].
      exists e. split; [rewrite <- FF1; exact FF|].
      right. left. exists y, w1. split; [exact F1|]. split; [exact F2 | reflexivity]. }
  destruct R2 as [R2 FF2].
  destruct (find_or_create_folder_summary grade (Some s) w2)
    as (r3 & w3 & e3 & F3 & D3 & L3 & A3 & R3).
  apply (folder_named_in grade [year; semester; grade; section]) in A3;
    [|cbn; tauto].
  destruct r3 as [g|m].
  2:{ destruct R3 as (_ & e & FF & ->).
      exists (Raise (structure_error (folder_error grade e))), w3, (e1 ++ e2 ++ e3).
      split.
      { unfold create_folder_structure. erewrite try_raise; [reflexivity|].
        rewrite (bind_ok _ _ _ _ _ F1), (bind_ok _ _ _ _ _ F2).
        apply bind_raise. exact F3. }
      split; [rewrite D3, D2, D1, <- !app_assoc; reflexivity|].
      split; [rewrite !length_app; lia|].
      split; [repeat (apply Forall_app; split); assumption|].
      exists e. split; [rewrite <- FF1, <- FF2; exact FF|].
      right. right. left. exists y, w1, s, w2.
      split; [exact F1|]. split; [exact F2|]. split; [exact F3 | reflexivity]. }
  destruct R3 as [R3 FF3].
  destruct (find_or_create_folder_summary section (Some g) w3)
    as (r4 & w4 & e4 & F4 & D4 & L4 & A4 & R4).
  apply (folder_named_in section [year; semester; grade; section]) in A4;
    [|cbn; tauto].
  assert (D : drive w4 = drive w ++ e1 ++ e2 ++ e3 ++ e4)
    by (rewrite D4, D3, D2, D1, <- !app_assoc; reflexivity).
  assert (L : (length (e1 ++ e2 ++ e3 ++ e4) <= 4)%nat)
    by (rewrite !length_app; lia).
  assert (A : Forall (fun f => f_mime f = folder_mime
                               /\ In (f_name f) [year; semester; grade; section])
                (e1 ++ e2 ++ e3 ++ e4))
    by (repeat (apply Forall_app; split); assumption).
  destruct r4 as [c|m].
  2:{ destruct R4 as (_ & e & FF & ->).
      exists (Raise (structure_error (folder_error section e))), w4,
        (e1 ++ e2 ++ e3 ++ e4).
      split.
      { unfold create_folder_structure. erewrite try_raise; [reflexivity|].
        rewrite (bind_ok _ _ _ _ _ F1), (bind_ok _ _ _ _ _ F2),
          (bind_ok _ _ _ _ _ F3).
        apply bind_raise. exact F4. }
      split; [exact D|]. split; [exact L|]. split; [exact A|].
      exists e. split; [rewrite <- FF1, <- FF2, <- FF3; exact FF|].
      right. right. right. exists y, w1, s, w2, g, w3.
      split; [exact F1|]. split; [exact F2|]. split; [exact F3|].
      split; [exact F4 | reflexivity]. }
  destruct R4 as [R4 FF4].
  exists (Ok c), w4, (e1 ++ e2 ++ e3 ++ e4).
  split.
  { unfold create_folder_structure. apply try_ok.
    rewrite (bind_ok _ _ _ _ _ F1), (bind_ok _ _ _ _ _ F2),
      (bind_ok _ _ _ _ _ F3), (bind_ok _ _ _ _ _ F4).
    reflexivity. }
  split; [exact D|]. split; [exact L|]. split; [exact A|].
  exists y, s, g.
  split; [rewrite D4, D3, D2; do 3 apply resolves_app; exact R1|].
  split; [rewrite D4, D3; do 2 apply resolves_app; exact R2|].
  split; [rewrite D4; apply resolves_app; exact R3 | exact R4].
Qed.

(** X6: when [create_folder_structure] returns an id, the store holds a
    folder of that id named as the section, whose parents include a stored
    folder named as the grade, itself under one named as the semester,
    itself under one named as the year (a link is there whenever the parent's
    id is a non-empty string). *)
Theorem create_folder_structure_path (year semester grade section : pystr)
    (w w' : World) (id : pystr) :
  create_folder_structure mint view_link year semester grade section w = (Ok id, w') ->
  exists fy fs fg fc,
    (In fy (drive w') /\ In fs (drive w') /\ In fg (drive w') /\ In fc (drive w'))
    /\ (f_name fy = year /\ f_name fs = semester
        /\ f_name fg = grade /\ f_name fc = section)
    /\ (f_mime fy = folder_mime /\ f_mime fs = folder_mime
        /\ f_mime fg = folder_mime /\ f_mime fc = folder_mime)
    /\ (truthy (f_id fy) = true -> In (f_id fy) (f_parents fs))
    /\ (truthy (f_id fs) = true -> In (f_id fs) (f_parents fg))
    /\ (truthy (f_id fg) = true -> In (f_id fg) (f_parents fc))
    /\ f_id fc = id.
Proof.
  intros H.
  destruct (create_folder_structure_summary year semester grade section w)
    as (r & w1 & ext & F & _ & _ & _ & R).
  rewrite H in F. injection F as <- <-.
  destruct R as (y & s & g & R1 & R2 & R3 & R4).
  apply resolves_stored in R1 as (fy & I1 & E1 & N1 & M1 & _).
  apply resolves_stored in R2 as (fs & I2 & E2 & N2 & M2 & P2).
  apply resolves_stored in R3 as (fg & I3 & E3 & N3 & M3 & P3).
  apply resolves_stored in R4 as (fc & I4 & E4 & N4 & M4 & P4).
  exists fy, fs, fg, fc. subst y s g.
  split; [tauto|]. split; [tauto|]. split; [tauto|].
  unfold given in P2, P3, P4.
  split; [intros T; rewrite T in P2; exact P2|].
  split; [intros T; rewrite T in P3; exact P3|].
  split; [intros T; rewrite T in P4; exact P4 | exact E4].
Qed.

(** X7: whatever the storage calls do, [create_folder_structure] only adds
    to the store: at most four files, all folders named after one of its
    four arguments, and the ones stored before a failure stay; when it
    raises, the lookups before the failing one had returned, the failing
    lookup is the one named in the message, and the message is the message of
    the call that failed, the first failure of the script, behind that
    folder's name and the prefix of the structure. *)
Theorem create_folder_structure_append_only (year semester grade section : pystr)
    (w : World) :
  exists r w' ext,
    create_folder_structure mint view_link year semester grade section w = (r, w')
    /\ drive w' = drive w ++ ext
    /\ (length ext <= 4)%nat
    /\ Forall (fun f => f_mime f = folder_mime
                        /\ In (f_name f) [year; semester; grade; section]) ext
    /\ match r with
       | Ok _ => True
       | Raise m =>
           exists e,
             first_failure (outcomes w) = Some e
             /\ ((find_or_create_folder mint view_link year None w = (Raise (folder_error year e), w')
                  /\ m = structure_error (folder_error year e))
                 \/ (exists y w1,
                       find_or_create_folder mint view_link year None w = (Ok y, w1)
                       /\ find_or_create_folder mint view_link semester (Some y) w1
                          = (Raise (folder_error semester e), w')
                       /\ m = structure_error (folder_error semester e))
                 \/ (exists y w1 s w2,
                       find_or_create_folder mint view_link year None w = (Ok y, w1)
                       /\ find_or_create_folder mint view_link semester (Some y) w1 = (Ok s, w2)
                       /\ find_or_create_folder mint view_link grade (Some s) w2
                          = (Raise (folder_error grade e), w')
                       /\ m = structure_error (folder_error grade e))
                 \/ (exists y w1 s w2 g w3,
                       find_or_create_folder mint view_link year None w = (Ok y, w1)
                       /\ find_or_create_folder mint view_link semester (Some y) w1 = (Ok s, w2)
                       /\ find_or_create_folder mint view_link grade (Some s) w2 = (Ok g, w3)
                       /\ find_or_create_folder mint view_link section (Some g) w3
                          = (Raise (folder_error section e), w')
                       /\ m = structure_error (folder_error section e)))
       end.
Proof.
  destruct (create_folder_structure_summary year semester grade section w)
    as (r & w' & ext & F & D & L & A & R).
  exists r, w', ext. repeat (split; [assumption|]).
  destruct r; [exact I | exact R].
Qed.

(** X9: [save_submission] makes one call: when it goes through, the row is
    added at the end of the table and returned; when it raises with a
    message, the table stays as it was and the exception raised carries that
    very message behind the prefix of the function; the store and the page
    are never touched. *)
Theorem save_submission_outcome (data : Submission) (w : World) :
  exists r w',
    save_submission data w = (r, w')
    /\ drive w' = drive w
    /\ screen w' = screen w
    /\ outcomes w' = tl (outcomes w)
    /\ match next_outcome w with
       | None => r = Ok [data] /\ submissions w' = submissions w ++ [data]
       | Some e => r = Raise (save_error e) /\ submissions w' = submissions w
       end.
Proof.
  destruct (next_outcome w) as [e|] eqn:H.
  - eexists _, _. split; [apply (save_submission_fail _ _ _ H)|].
    rewrite drive_advance, screen_advance, submissions_advance, outcomes_advance.
    repeat split.
  - eexists _, _. split; [apply (save_submission_pass _ _ H)|].
    cbn [drive screen submissions outcomes set_submissions].
    rewrite drive_advance, screen_advance, outcomes_advance. repeat split.
Qed.

(** ** The submission branch: every outcome *)

Variable now_isoformat : pystr.
Variable now_strftime : pystr.

Lemma process_submission_folders_failed
    (current_year current_semester selected_grade selected_section : pystr)
    (student_name project_title : pystr) (uf : UploadedFile)
    (w w1 : World) (m : pystr) :
  validate student_name project_title (Some uf) = [] ->
  create_folder_structure mint view_link current_year current_semester
    selected_grade selected_section (shown [StSpinner spinner_text] w)
  = (Raise m, w1) ->
  process_submission mint view_link now_isoformat now_strftime
    current_year current_semester selected_grade selected_section
    student_name project_title (Some uf) w
  = (Ok tt, shown [StError (failure_text m); StWarning not_saved_text] w1).
Proof.
  intros V Hc. unfold process_submission. cbv zeta. rewrite V.
  rewrite (bind_ok _ _ _ _ _ (st_run _ w)).
  erewrite try_raise by (apply bind_raise; exact Hc).
  rewrite (bind_ok _ _ _ _ _ (st_run _ _)), st_run, shown_shown. reflexivity.
Qed.

Lemma validate_nil_file (n t : pystr) (f : option UploadedFile) :
  validate n t f = [] -> exists uf, f = Some uf.
Proof.
  intros V. apply validate_nil_iff in V as (_ & _ & C & _).
  destruct f as [uf|]; [exists uf; reflexivity | discriminate].
Qed.

(** What a submission leaves on the page and in the table, case by case:
    [es] is what it adds to the page, [rows] what it adds to the table. *)
Lemma process_submission_cases
    (current_year current_semester selected_grade selected_section : pystr)
    (student_name project_title : pystr) (uploaded_file : option UploadedFile)
    (w : World) :
  exists w' es rows,
    process_submission mint view_link now_isoformat now_strftime
      current_year current_semester selected_grade selected_section
      student_name project_title uploaded_file w = (Ok tt, w')
    /\ screen w' = screen w ++ es
    /\ submissions w' = submissions w ++ rows
    /\ ((rows = []
         /\ es = map StError (validate student_name project_title uploaded_file)
         /\ es <> [])
        \/ (rows = []
            /\ exists m, es = [StSpinner spinner_text; StError (failure_text m);
                               StWarning not_saved_text])
        \/ (exists url,
              rows = [mkSubmission (strip student_name) (strip project_title) url
                        selected_grade selected_section current_year
                        current_semester now_isoformat]
              /\ es = [StSpinner spinner_text; StSuccess success_text; StBalloons;
                       StInfo (details now_strftime student_name project_title
                                 selected_grade selected_section);
                       StMarkdown (link_text url)])).
Proof.
  destruct (validate student_name project_title uploaded_file) as [|e0 errs] eqn:V.
  2:{ exists (shown (map StError (e0 :: errs)) w), (map StError (e0 :: errs)), [].
      split; [rewrite <- V; apply process_submission_rejected; rewrite V; discriminate|].
      cbn [shown screen submissions]. rewrite app_nil_r.
      split; [reflexivity|]. split; [reflexivity|].
      left. split; [reflexivity|]. split; [reflexivity | discriminate]. }
  destruct (validate_nil_file _ _ _ V) as [uf ->].
  set (w0 := shown [StSpinner spinner_text] w).
  destruct (framed_create_folder_structure mint view_link current_year
              current_semester selected_grade selected_section w0) as [S1 T1].
  destruct (create_folder_structure mint view_link current_year current_semester
              selected_grade selected_section w0) as [[fid|m] w1] eqn:Hc;
    cbn [snd] in S1, T1.
  2:{ exists (shown [StError (failure_text m); StWarning not_saved_text] w1),
        [StSpinner spinner_text; StError (failure_text m); StWarning not_saved_text],
        [].
      split; [apply (process_submission_folders_failed _ _ _ _ _ _ _ _ _ _ V Hc)|].
      cbn [shown screen submissions]. rewrite T1, S1, app_nil_r.
      subst w0. cbn [shown screen submissions]. rewrite <- app_assoc.
      split; [reflexivity|]. split; [reflexivity|].
      right. left. split; [reflexivity|]. exists m. reflexivity. }
  exists (shown [StError (failure_text (upload_error media_type_error));
                 StWarning not_saved_text] w1),
    [StSpinner spinner_text;
     StError (failure_text (upload_error media_type_error));
     StWarning not_saved_text],
    [].
  split; [apply (process_submission_upload_raises mint view_link now_isoformat
                   now_strftime _ _ _ _ _ _ _ _ _ _ V Hc)|].
  cbn [shown screen submissions]. rewrite T1, S1, app_nil_r.
  subst w0. cbn [shown screen submissions]. rewrite <- app_assoc.
  split; [reflexivity|]. split; [reflexivity|].
  right. left. split; [reflexivity|]. eexists. reflexivity.
Qed.

(** X10: a submission never lets an exception out: whatever the form holds
    and whatever the external calls do, the branch ends normally. *)
Theorem process_submission_never_raises
    (current_year current_semester selected_grade selected_section : pystr)
    (student_name project_title : pystr) (uploaded_file : option UploadedFile)
    (w : World) :
  fst (process_submission mint view_link now_isoformat now_strftime
         current_year current_semester selected_grade selected_section
         student_name project_title uploaded_file w) = Ok tt.
Proof.
  destruct (process_submission_cases current_year current_semester selected_grade
              selected_section student_name project_title uploaded_file w)
    as (w' & es & rows & P & _).
  rewrite P. reflexivity.
Qed.

(** X11: a submission adds at most one row, and adds it exactly when it
    shows the success message: either the table is as it was and no success
    message is added to the page, or the table gains the one row, with the
    stripped name and title, the link, the grade, section, year, semester and
    timestamp, and the page gains the spinner, the success message, the
    balloons, the details and the link. *)
Theorem process_submission_row_iff_success
    (current_year current_semester selected_grade selected_section : pystr)
    (student_name project_title : pystr) (uploaded_file : option UploadedFile)
    (w : World) :
  exists w' es,
    process_submission mint view_link now_isoformat now_strftime
      current_year current_semester selected_grade selected_section
      student_name project_title uploaded_file w = (Ok tt, w')
    /\ screen w' = screen w ++ es
    /\ ((submissions w' = submissions w
         /\ forall body, ~ In (StSuccess body) es)
        \/ (exists url,
              submissions w'
              = submissions w
                ++ [mkSubmission (strip student_name) (strip project_title) url
                      selected_grade selected_section current_year
                      current_semester now_isoformat]
              /\ es = [StSpinner spinner_text; StSuccess success_text; StBalloons;
                       StInfo (details now_strftime student_name project_title
                                 selected_grade selected_section);
                       StMarkdown (link_text url)])).
Proof.
  destruct (process_submission_cases current_year current_semester selected_grade
              selected_section student_name project_title uploaded_file w)
    as (w' & es & rows & P & Sc & Sb & [(R & E & _) | [(R & m & E) | (url & R & E)]]).
  - exists w', es. split; [exact P|]. split; [exact Sc|]. left.
    rewrite Sb, R, app_nil_r. split; [reflexivity|].
    intros body Hin. rewrite E in Hin. apply in_map_iff in Hin as (x & Hx & _).
    discriminate Hx.
  - exists w', es. split; [exact P|]. split; [exact Sc|]. left.
    rewrite Sb, R, app_nil_r. split; [reflexivity|].
    intros body Hin. rewrite E in Hin. cbn [In] in Hin.
    destruct Hin as [H|[H|[H|H]]]; try discriminate H. exact H.
  - exists w', es. split; [exact P|]. split; [exact Sc|]. right.
    exists url. rewrite Sb, R. split; [reflexivity | exact E].
Qed.

(** X12: when folder resolution raises, the submission stops there: no
    further external call is made, the store is as the failed step left it,
    the table as it was, and the page gains the spinner, one error carrying
    the message, and the warning. *)
Theorem process_submission_stops_at_folder_failure
    (current_year current_semester selected_grade selected_section : pystr)
    (student_name project_title : pystr) (uf : UploadedFile)
    (w w1 : World) (m : pystr) :
  validate student_name project_title (Some uf) = [] ->
  create_folder_structure mint view_link current_year current_semester
    selected_grade selected_section (shown [StSpinner spinner_text] w)
  = (Raise m, w1) ->
  exists w',
    process_submission mint view_link now_isoformat now_strftime
      current_year current_semester selected_grade selected_section
      student_name project_title (Some uf) w = (Ok tt, w')
    /\ drive w' = drive w1
    /\ outcomes w' = outcomes w1
    /\ submissions w' = submissions w
    /\ screen w' = screen w ++ [StSpinner spinner_text; StError (failure_text m);
                                StWarning not_saved_text].
Proof.
  intros V Hc.
  destruct (framed_create_folder_structure mint view_link current_year
              current_semester selected_grade selected_section
              (shown [StSpinner spinner_text] w)) as [S1 T1].
  rewrite Hc in S1, T1. cbn [snd shown submissions screen] in S1, T1.
  eexists. split; [apply (process_submission_folders_failed _ _ _ _ _ _ _ _ _ _ V Hc)|].
  cbn [shown drive outcomes submissions screen].
  rewrite T1, S1, <- app_assoc. repeat split.
Qed.

(** X13: once the folders are resolved the upload raises, and the
    submission stops there: no further external call is made and no insert
    is attempted, the folders stay in the store as folder resolution left
    them, the table is as it was, and the page gains the spinner, one error
    carrying the message of the upload failure, and the warning. *)
Theorem process_submission_stops_at_upload_failure
    (current_year current_semester selected_grade selected_section : pystr)
    (student_name project_title : pystr) (uf : UploadedFile)
    (w w1 : World) (folder_id : pystr) :
  validate student_name project_title (Some uf) = [] ->
  create_folder_structure mint view_link current_year current_semester
    selected_grade selected_section (shown [StSpinner spinner_text] w)
  = (Ok folder_id, w1) ->
  exists w',
    process_submission mint view_link now_isoformat now_strftime
      current_year current_semester selected_grade selected_section
      student_name project_title (Some uf) w = (Ok tt, w')
    /\ drive w' = drive w1
    /\ outcomes w' = outcomes w1
    /\ submissions w' = submissions w
    /\ screen w'
       = screen w ++ [StSpinner spinner_text;
                      StError (failure_text (upload_error media_type_error));
                      StWarning not_saved_text].
Proof.
  intros V Hc.
  destruct (framed_create_folder_structure mint view_link current_year
              current_semester selected_grade selected_section
              (shown [StSpinner spinner_text] w)) as [S1 T1].
  rewrite Hc in S1, T1. cbn [snd shown submissions screen] in S1, T1.
  eexists.
  split; [apply (process_submission_upload_raises mint view_link now_isoformat
                   now_strftime _ _ _ _ _ _ _ _ _ _ V Hc)|].
  cbn [shown drive outcomes submissions screen].
  rewrite T1, S1, <- app_assoc. repeat split.
Qed.

End BackendMore.

Lemma create_folder_structure_path_witness :
  exists fy fs fg fc,
    (In fy (drive (snd (sample_folders_on empty_world)))
     /\ In fs (drive (snd (sample_folders_on empty_world)))
     /\ In fg (drive (snd (sample_folders_on empty_world)))
     /\ In fc (drive (snd (sample_folders_on empty_world))))
    /\ (f_name fy = u "2025" /\ f_name fs = u "1"
        /\ f_name fg = u "10" /\ f_name fc = u "A")
    /\ (f_mime fy = folder_mime /\ f_mime fs = folder_mime
        /\ f_mime fg = folder_mime /\ f_mime fc = folder_mime)
    /\ (truthy (f_id fy) = true -> In (f_id fy) (f_parents fs))
    /\ (truthy (f_id fs) = true -> In (f_id fs) (f_parents fg))
    /\ (truthy (f_id fg) = true -> In (f_id fg) (f_parents fc))
    /\ f_id fc = u "id3".
Proof.
  apply (create_folder_structure_path sample_mint sample_link
           (u "2025") (u "1") (u "10") (u "A")
           (shown [StSpinner spinner_text] empty_world)
           (snd (sample_folders_on empty_world)) (u "id3")).
  vm_compute. reflexivity.
Defined.

Lemma process_submission_stops_at_folder_failure_witness :
  exists w',
    sample_submit (failing_after 2 (u "timeout")) = (Ok tt, w')
    /\ drive w' = drive (snd (sample_folders_on (failing_after 2 (u "timeout"))))
    /\ outcomes w' = outcomes (snd (sample_folders_on (failing_after 2 (u "timeout"))))
    /\ submissions w' = submissions (failing_after 2 (u "timeout"))
    /\ screen w'
       = screen (failing_after 2 (u "timeout"))
         ++ [StSpinner spinner_text;
             StError (failure_text
                        (structure_error (folder_error (u "1") (u "timeout"))));
             StWarning not_saved_text].
Proof.
  apply (process_submission_stops_at_folder_failure sample_mint sample_link
           (u "2026-11-03T10:00:00") (u "2026-11-03 10:00")
           (u "2025") (u "1") (u "10") (u "A")
           (u "Ahmed Ali Omar") (u "Renewable Energy and Its Future Impact")
           (sample_pdf 4) (failing_after 2 (u "timeout"))
           (snd (sample_folders_on (failing_after 2 (u "timeout"))))
           (structure_error (folder_error (u "1") (u "timeout")))).
  - vm_compute. reflexivity.
  - vm_compute. reflexivity.
Defined.

Lemma process_submission_stops_at_upload_failure_witness :
  exists w',
    sample_submit empty_world = (Ok tt, w')
    /\ drive w' = drive (snd (sample_folders_on empty_world))
    /\ outcomes w' = outcomes (snd (sample_folders_on empty_world))
    /\ submissions w' = submissions empty_world
    /\ screen w'
       = screen empty_world
         ++ [StSpinner spinner_text;
             StError (failure_text (upload_error media_type_error));
             StWarning not_saved_text].
Proof.
  apply (process_submission_stops_at_upload_failure sample_mint sample_link
           (u "2026-11-03T10:00:00") (u "2026-11-03 10:00")
           (u "2025") (u "1") (u "10") (u "A")
           (u "Ahmed Ali Omar") (u "Renewable Energy and Its Future Impact")
           (sample_pdf 4) empty_world
           (snd (sample_folders_on empty_world)) (u "id3")).
  - vm_compute. reflexivity.
  - vm_compute. reflexivity.
Defined.

(** ** Reading the tables *)

(** X14: [get_system_config] never raises and touches neither the store nor
    the table of submissions; it returns the first row of the table exactly
    when the call goes through and the table is not empty, and shows nothing
    then; otherwise it returns [None] after showing exactly one error, the
    missing-configuration message for an empty table and the cause behind
    its prefix for a failed call. *)
Theorem get_system_config_outcome (system_config : list ConfigRow) (w : World) :
  exists r w',
    get_system_config system_config w = (Ok r, w')
    /\ drive w' = drive w
    /\ submissions w' = submissions w
    /\ match next_outcome w, system_config with
       | None, row :: _ => r = Some row /\ screen w' = screen w
       | None, [] => r = None /\ screen w' = screen w ++ [StError no_config_text]
       | Some e, _ => r = None /\ screen w' = screen w ++ [StError (config_error e)]
       end.
Proof.
  unfold get_system_config, table_select.
  destruct (next_outcome w) as [e|] eqn:H.
  - eexists _, _. split.
    { erewrite try_raise by (do 2 apply bind_raise; apply external_fail, H).
      rewrite (bind_ok _ _ _ _ _ (st_run _ _)). reflexivity. }
    cbn [shown drive submissions screen].
    rewrite drive_advance, submissions_advance, screen_advance. repeat split.
  - destruct system_config as [|row rest].
    + eexists _, _. split.
      { apply try_ok. rewrite (bind_ok _ _ _ _ _ (bind_ok _ _ _ _ _ (external_pass w H))).
        cbn [firstn]. rewrite (bind_ok _ _ _ _ _ (st_run _ _)). reflexivity. }
      cbn [shown drive submissions screen].
      rewrite drive_advance, submissions_advance, screen_advance. repeat split.
    + eexists _, _. split.
      { apply try_ok. rewrite (bind_ok _ _ _ _ _ (bind_ok _ _ _ _ _ (external_pass w H))).
        reflexivity. }
      rewrite drive_advance, submissions_advance, screen_advance. repeat split.
Qed.

(** X15: [get_classes] never raises and touches neither the store nor the
    table of submissions; when the call goes through it returns the rows as
    the database gave them and shows nothing, and when the call fails it
    returns the empty list after showing one error with the cause. *)
Theorem get_classes_outcome (classes : list ClassRow) (w : World) :
  exists r w',
    get_classes classes w = (Ok r, w')
    /\ drive w' = drive w
    /\ submissions w' = submissions w
    /\ match next_outcome w with
       | None => r = classes /\ screen w' = screen w
       | Some e => r = [] /\ screen w' = screen w ++ [StError (classes_error e)]
       end.
Proof.
  unfold get_classes, table_select.
  destruct (next_outcome w) as [e|] eqn:H.
  - eexists _, _. split.
    { erewrite try_raise by (apply bind_raise, external_fail, H).
      rewrite (bind_ok _ _ _ _ _ (st_run _ _)). reflexivity. }
    cbn [shown drive submissions screen].
    rewrite drive_advance, submissions_advance, screen_advance. repeat split.
  - eexists _, _. split.
    { apply try_ok. rewrite (bind_ok _ _ _ _ _ (external_pass w H)). reflexivity. }
    rewrite drive_advance, submissions_advance, screen_advance. repeat split.
Qed.

(** ** The two dropdowns *)

Lemma existsb_pystr_eqb (x : pystr) (l : list pystr) :
  existsb (pystr_eqb x) l = true <-> In x l.
Proof.
  rewrite existsb_exists. split.
  - intros (y & I & E). apply pystr_eqb_eq in E. subst y. exact I.
  - intros I. exists x. split; [exact I | apply pystr_eqb_refl].
Qed.

Lemma distinct_In (x : pystr) (l : list pystr) : In x (distinct l) <-> In x l.
Proof.
  induction l as [|y r IH]; cbn [distinct In]; [reflexivity|].
  destruct (existsb (pystr_eqb y) r) eqn:E.
  - apply existsb_pystr_eqb in E. rewrite IH. split; [auto|].
    intros [<-|H]; assumption.
  - cbn [In]. rewrite IH. reflexivity.
Qed.

Lemma distinct_NoDup (l : list pystr) : NoDup (distinct l).
Proof.
  induction l as [|y r IH]; cbn [distinct]; [constructor|].
  destruct (existsb (pystr_eqb y) r) eqn:E; [exact IH|].
  constructor; [|exact IH].
  rewrite distinct_In, <- existsb_pystr_eqb, E. discriminate.
Qed.

Lemma insert_sorted_In (y x : pystr) (l : list pystr) :
  In y (insert_sorted x l) <-> y = x \/ In y l.
Proof.
  induction l as [|z r IH]; cbn [insert_sorted In].
  - split; [intros [<-|[]]; auto | intros [->|[]]; auto].
  - destruct (pystr_ltb z x); cbn [In]; [rewrite IH|];
      split; intros H; repeat destruct H as [H|H]; subst; auto.
Qed.

Lemma insert_sorted_NoDup (x : pystr) (l : list pystr) :
  ~ In x l -> NoDup l -> NoDup (insert_sorted x l).
Proof.
  induction l as [|z r IH]; cbn [insert_sorted]; intros Hx Hl.
  - constructor; [exact Hx | constructor].
  - destruct (pystr_ltb z x).
    + inversion Hl as [|? ? Hz Hr]; subst. constructor.
      * rewrite insert_sorted_In. intros [->|H]; [apply Hx; left; reflexivity|].
        exact (Hz H).
      * apply IH; [intros H; apply Hx; right; exact H | exact Hr].
    + constructor; assumption.
Qed.

Lemma sorted_In (y : pystr) (l : list pystr) : In y (sorted l) <-> In y l.
Proof.
  induction l as [|x r IH]; cbn [sorted fold_right In]; [reflexivity|].
  fold (sorted r). rewrite insert_sorted_In, IH. split; intros [H|H]; auto.
Qed.

Lemma sorted_NoDup (l : list pystr) : NoDup l -> NoDup (sorted l).
Proof.
  induction l as [|x r IH]; cbn [sorted fold_right]; intros H; [constructor|].
  fold (sorted r). inversion H as [|? ? Hx Hr]; subst.
  apply insert_sorted_NoDup; [rewrite sorted_In; exact Hx | exact (IH Hr)].
Qed.

(** Any two different strings compare one way or the other. *)
Lemma pystr_ltb_total (a b : pystr) :
  pystr_ltb a b = false -> a = b \/ pystr_ltb b a = true.
Proof.
  revert b; induction a as [|x a IH]; intros [|y b]; cbn [pystr_ltb]; intros H;
    try discriminate; auto.
  apply orb_false_iff in H as [Hlt H].
  apply N.ltb_ge in Hlt.
  destruct (N.eqb_spec x y) as [->|Hne].
  - cbn [andb] in H. destruct (IH b H) as [->|Hb]; [left; reflexivity|].
    right. rewrite N.eqb_refl, Hb. apply orb_true_r.
  - right. assert (L : (y <? x) = true) by (apply N.ltb_lt; lia).
    rewrite L. reflexivity.
Qed.

Lemma pystr_ltb_irrefl (a : pystr) : pystr_ltb a a = false.
Proof.
  induction a as [|x a IH]; cbn [pystr_ltb]; [reflexivity|].
  rewrite N.ltb_irrefl, N.eqb_refl, IH. reflexivity.
Qed.

Lemma pystr_ltb_trans (a b c : pystr) :
  pystr_ltb a b = true -> pystr_ltb b c = true -> pystr_ltb a c = true.
Proof.
  revert b c; induction a as [|x a IH]; intros [|y b] [|z c]; cbn [pystr_ltb];
    intros H1 H2; try discriminate; try reflexivity.
  apply orb_true_iff in H1 as [H1|H1]; apply orb_true_iff in H2 as [H2|H2].
  - apply N.ltb_lt in H1, H2. assert (L : (x <? z) = true) by (apply N.ltb_lt; lia).
    rewrite L. reflexivity.
  - apply andb_true_iff in H2 as [E _]. apply N.eqb_eq in E. subst z.
    rewrite H1. reflexivity.
  - apply andb_true_iff in H1 as [E _]. apply N.eqb_eq in E. subst y.
    rewrite H2. reflexivity.
  - apply andb_true_iff in H1 as [E1 L1]. apply andb_true_iff in H2 as [E2 L2].
    apply N.eqb_eq in E1, E2. subst y z.
    rewrite N.eqb_refl, (IH b c L1 L2). apply orb_true_r.
Qed.

Lemma insert_sorted_Forall (P : pystr -> Prop) (x : pystr) (l : list pystr) :
  P x -> Forall P l -> Forall P (insert_sorted x l).
Proof.
  intros Hx Hl. apply Forall_forall. intros y Hy.
  apply insert_sorted_In in Hy as [->|Hy]; [exact Hx|].
  rewrite Forall_forall in Hl. exact (Hl y Hy).
Qed.

Lemma insert_sorted_increasing (x : pystr) (l : list pystr) :
  ~ In x l ->
  StronglySorted (fun a b => pystr_ltb a b = true) l ->
  StronglySorted (fun a b => pystr_ltb a b = true) (insert_sorted x l).
Proof.
  induction l as [|z r IH]; cbn [insert_sorted]; intros Hx Hl.
  - constructor; constructor.
  - inversion Hl as [|? ? Hr Hz]; subst.
    destruct (pystr_ltb z x) eqn:E.
    + constructor.
      * apply IH; [intros H; apply Hx; right; exact H | exact Hr].
      * apply insert_sorted_Forall; [exact E | exact Hz].
    + assert (L : pystr_ltb x z = true).
      { destruct (pystr_ltb_total z x E) as [->|L]; [|exact L].
        exfalso. apply Hx. left. reflexivity. }
      constructor; [exact Hl|].
      constructor; [exact L|].
      apply (Forall_impl _ (fun b (Hb : pystr_ltb z b = true) =>
                              pystr_ltb_trans x z b L Hb) Hz).
Qed.

Lemma sorted_increasing (l : list pystr) :
  NoDup l -> StronglySorted (fun a b => pystr_ltb a b = true) (sorted l).
Proof.
  induction l as [|x r IH]; cbn [sorted fold_right]; intros H; [constructor|].
  fold (sorted r). inversion H as [|? ? Hx Hr]; subst.
  apply insert_sorted_increasing; [rewrite sorted_In; exact Hx | exact (IH Hr)].
Qed.

(** X16: the grade dropdown lists exactly the grade levels that occur in the
    class rows, each once, in strictly increasing string order. *)
Theorem grades_of_sorted_distinct (classes : list ClassRow) :
  (forall g, In g (grades_of classes)
             <-> exists c, In c classes /\ grade_level c = g)
  /\ NoDup (grades_of classes)
  /\ StronglySorted (fun a b => pystr_ltb a b = true) (grades_of classes).
Proof.
  unfold grades_of. split; [|split].
  - intros g. rewrite sorted_In, distinct_In, in_map_iff.
    split; intros (c & A & B); exists c; split; assumption.
  - apply sorted_NoDup, distinct_NoDup.
  - apply sorted_increasing, distinct_NoDup.
Qed.

(** X17: the section dropdown of a grade lists the section names of exactly
    the class rows of that grade, in the order of the rows; every grade the
    first dropdown offers has at least one section; and a non-empty class
    list gives a non-empty grade dropdown. *)
Theorem sections_of_offered (classes : list ClassRow) (selected_grade : pystr) :
  sections_of classes selected_grade
  = map section_name
        (filter (fun c => pystr_eqb (grade_level c) selected_grade) classes)
  /\ (forall s, In s (sections_of classes selected_grade)
                <-> exists c, In c classes /\ grade_level c = selected_grade
                              /\ section_name c = s)
  /\ (In selected_grade (grades_of classes) ->
      sections_of classes selected_grade <> [])
  /\ (classes <> [] -> grades_of classes <> []).
Proof.
  split; [reflexivity|].
  assert (M : forall s, In s (sections_of classes selected_grade)
                <-> exists c, In c classes /\ grade_level c = selected_grade
                              /\ section_name c = s).
  { intros s. unfold sections_of. rewrite in_map_iff. split.
    - intros (c & A & B). apply filter_In in B as [B C].
      apply pystr_eqb_eq in C. exists c. repeat split; assumption.
    - intros (c & A & B & C). exists c. split; [exact C|].
      apply filter_In. split; [exact A|]. apply pystr_eqb_eq. exact B. }
  split; [exact M|]. split.
  - unfold grades_of. rewrite sorted_In, distinct_In, in_map_iff.
    intros (c & A & B) E.
    assert (I : In (section_name c) (sections_of classes selected_grade))
      by (apply M; exists c; repeat split; assumption).
    rewrite E in I. exact I.
  - intros H E. destruct classes as [|c r]; [contradiction|].
    assert (I : In (grade_level c) (grades_of (c :: r))).
    { unfold grades_of. rewrite sorted_In, distinct_In. left. reflexivity. }
    rewrite E in I. exact I.
Qed.

Lemma sections_of_offered_witness :
  sections_of sample_classes (u "10") <> [] /\ grades_of sample_classes <> [].
Proof.
  destruct (sections_of_offered sample_classes (u "10")) as (_ & _ & A & B).
  split; [apply A | apply B].
  - vm_compute. tauto.
  - discriminate.
Defined.

Example sample_dropdowns :
  grades_of sample_classes = [u "10"; u "11"; u "9"]
  /\ sections_of sample_classes (u "10") = [u "A"; u "B"].
Proof. vm_compute. split; reflexivity. Qed.

(** ** No submission is ever saved *)

Section BackendRows.

Variable mint : list DriveFile -> pystr.
Variable view_link : pystr -> pystr.
Variable now_isoformat : pystr.
Variable now_strftime : pystr.

(** X18: whatever the form holds and whatever the external calls do, a
    submission adds no row to the table and shows no success message; all it
    can add to the store is folders, at most four, named after the year, the
    semester, the grade and the section. *)
Theorem process_submission_never_saves
    (current_year current_semester selected_grade selected_section : pystr)
    (student_name project_title : pystr) (uploaded_file : option UploadedFile)
    (w : World) :
  exists w' es ext,
    process_submission mint view_link now_isoformat now_strftime
      current_year current_semester selected_grade selected_section
      student_name project_title uploaded_file w = (Ok tt, w')
    /\ submissions w' = submissions w
    /\ screen w' = screen w ++ es
    /\ (forall body, ~ In (StSuccess body) es)
    /\ drive w' = drive w ++ ext
    /\ (length ext <= 4)%nat
    /\ Forall (fun f => f_mime f = folder_mime
                        /\ In (f_name f)
                             [current_year; current_semester;
                              selected_grade; selected_section]) ext.
Proof.
  destruct (validate student_name project_title uploaded_file) as [|e0 errs] eqn:V.
  2:{ exists (shown (map StError (e0 :: errs)) w), (map StError (e0 :: errs)), [].
      split; [rewrite <- V; apply process_submission_rejected; rewrite V; discriminate|].
      cbn [shown screen submissions drive]. rewrite app_nil_r.
      split; [reflexivity|]. split; [reflexivity|].
      split.
      { intros body Hin. apply in_map_iff in Hin as (x & Hx & _). discriminate Hx. }
      split; [reflexivity|]. split; [cbn; lia | constructor]. }
  destruct (validate_nil_file _ _ _ V) as [uf ->].
  destruct (framed_create_folder_structure mint view_link current_year
              current_semester selected_grade selected_section
              (shown [StSpinner spinner_text] w)) as [S1 T1].
  destruct (create_folder_structure_summary mint view_link current_year
              current_semester selected_grade selected_section
              (shown [StSpinner spinner_text] w))
    as (r & w1 & ext & Hc & D & L & A & _).
  rewrite Hc in S1, T1. cbn [snd shown submissions screen drive] in S1, T1, D.
  destruct r as [fid|m].
  - exists (shown [StError (failure_text (upload_error media_type_error));
                   StWarning not_saved_text] w1),
      [StSpinner spinner_text;
       StError (failure_text (upload_error media_type_error));
       StWarning not_saved_text], ext.
    split; [apply (process_submission_upload_raises mint view_link now_isoformat
                     now_strftime _ _ _ _ _ _ _ _ _ _ V Hc)|].
    cbn [shown screen submissions drive]. rewrite T1, S1, <- app_assoc.
    split; [reflexivity|]. split; [reflexivity|].
    split.
    { intros body Hin. cbn [In] in Hin.
      destruct Hin as [H|[H|[H|H]]]; try discriminate H. exact H. }
    split; [exact D|]. split; [exact L | exact A].
  - exists (shown [StError (failure_text m); StWarning not_saved_text] w1),
      [StSpinner spinner_text; StError (failure_text m); StWarning not_saved_text],
      ext.
    split; [apply (process_submission_folders_failed mint view_link now_isoformat
                     now_strftime _ _ _ _ _ _ _ _ _ _ V Hc)|].
    cbn [shown screen submissions drive]. rewrite T1, S1, <- app_assoc.
    split; [reflexivity|]. split; [reflexivity|].
    split.
    { intros body Hin. cbn [In] in Hin.
      destruct Hin as [H|[H|[H|H]]]; try discriminate H. exact H. }
    split; [exact D|]. split; [exact L | exact A].
Qed.

End BackendRows.
